(** * tflow2: the IPFIX ingestion server and the flow annotator

    A shallow embedding of [ifserver/ifserver.go] and
    [annotator/annotator.go] and the properties of the decode-and-annotate
    pipeline proved about it.

    Layout: Part I holds the embedding (one module per Go package), Part II
    the lemmas and theorems.  Goroutines are modelled by the body of their
    loop: one function per iteration, threading the state the iteration
    reads and writes (template cache, flows sent on the output channel,
    global counters).  A Go runtime panic is the [Panic] outcome. *)

From stdpp Require Import base option list gmap strings.
From Stdlib Require Import ZArith Lia Ascii DecimalString DecimalZ.
From Stdlib.Strings Require Import Byte.

Local Open Scope Z_scope.

(* ===================================================================== *)
(** * Part I: the embedding *)
(* ===================================================================== *)

(** ** Go's fixed-width integers and panics *)
Module Go.

(** Outcome of a Go computation that may panic. *)
Inductive result (A : Type) : Type :=
| Ok (a : A)
| Panic.
Arguments Ok {A} a.
Arguments Panic {A}.

Definition bind {A B : Type} (r : result A) (k : A -> result B) : result B :=
  match r with
  | Ok a => k a
  | Panic => Panic
  end.

Definition rmap {A B : Type} (f : A -> B) (r : result A) : result B :=
  bind r (fun a => Ok (f a)).

(** Conversion to [uint32], [uint64] and [int64]: wrap-around. *)
Definition uint32 (x : Z) : Z := x mod 2 ^ 32.
Definition uint64 (x : Z) : Z := x mod 2 ^ 64.
Definition int64 (x : Z) : Z := (x + 2 ^ 63) mod 2 ^ 64 - 2 ^ 63.

Definition is_int64 (x : Z) : Prop := - 2 ^ 63 <= x < 2 ^ 63.

(** [x % y] on [int64]: the remainder of the division truncated towards
    zero (it has the sign of [x]); a zero divisor panics. *)
Definition rem64 (x y : Z) : result Z :=
  if y =? 0 then Panic else Ok (int64 (Z.rem x y)).

(** [x - y] on [int64]. *)
Definition sub64 (x y : Z) : Z := int64 (x - y).

(** [s[i]] for a slice [s] and an [int] index: out of range panics. *)
Definition index {A : Type} (s : list A) (i : Z) : result A :=
  if i <? 0 then Panic
  else match s !! Z.to_nat i with
       | Some a => Ok a
       | None => Panic
       end.

(** [s[i] = a] for a slice [s]: out of range panics. *)
Definition store {A : Type} (s : list A) (i : nat) (a : A) : result (list A) :=
  if (i <? length s)%nat then Ok (<[i := a]> s) else Panic.

End Go.

Notation "'let*' x ':=' e 'in' k" := (Go.bind e (fun x => k))
  (at level 10, x pattern, e at level 200, k at level 200).

(** ** Packages [strconv] and [strings]: what [makeTemplateKey] uses *)
Module strconv.

(** [strconv.Itoa]: the decimal digits of an [int], with a leading minus
    sign for a negative one. *)
Definition Itoa (i : Z) : string := NilEmpty.string_of_int (Z.to_int i).

End strconv.

Module strings_.

(** [strings.Join(elems, sep)]: the elements with [sep] between them. *)
Fixpoint Join (elems : list string) (sep : string) : string :=
  match elems with
  | [] => ""
  | [a] => a
  | a :: elems => a +:+ sep +:+ Join elems sep
  end.

End strings_.

(** ** Package [net]: the part of [net.IP] the server uses *)
Module net.

(** An [IP] is a byte slice, 4 bytes for IPv4 and 16 for IPv6. *)
Definition IP : Type := list byte.

Definition is_byte (b : byte) (o : option byte) : bool :=
  match o with
  | Some c => Byte.eqb b c
  | None => false
  end.

(** [IP.To4]: the 4-byte form of an IPv4 address (given in 4 bytes, or in
    16 bytes as an IPv4-mapped IPv6 address), [nil] ([None]) otherwise. *)
Definition To4 (ip : IP) : option IP :=
  if (length ip =? 4)%nat then Some ip
  else if (length ip =? 16)%nat
          && forallb (Byte.eqb x00) (take 10 ip)
          && is_byte xff (ip !! 10%nat)
          && is_byte xff (ip !! 11%nat)
       then Some (drop 12 ip)
       else None.

End net.

(** ** Package [netflow]: the flow record *)
Module netflow.

(** Modelled from the spec: the [netflow.Flow] struct is declared outside
    the two source files; these are the fields the two files read or
    write, with the types of the values assigned to them. *)
Record Flow : Type := mkFlow {
  Router : net.IP;
  Timestamp : Z;      (* int64 *)
  Family : Z;         (* uint32 *)
  Packets : Z;        (* uint32 *)
  Size : Z;           (* uint64 *)
  Protocol : Z;       (* uint32 *)
  IntIn : Z;          (* uint32 *)
  IntOut : Z;         (* uint32 *)
  SrcPort : Z;        (* uint32 *)
  DstPort : Z;        (* uint32 *)
  SrcAddr : list byte;
  DstAddr : list byte;
  NextHop : list byte;
  SrcAs : Z;          (* uint32 *)
  DstAs : Z           (* uint32 *)
}.

(** [fl.Timestamp = t] *)
Definition set_Timestamp (t : Z) (fl : Flow) : Flow :=
  mkFlow (Router fl) t (Family fl) (Packets fl) (Size fl) (Protocol fl)
         (IntIn fl) (IntOut fl) (SrcPort fl) (DstPort fl)
         (SrcAddr fl) (DstAddr fl) (NextHop fl) (SrcAs fl) (DstAs fl).

End netflow.

(** ** Package [stats]: the global counters *)
Module stats.

(** Modelled from the spec: [stats.GlobalStats] is declared outside the
    two source files; these are the [uint64] counters the two files
    update with [atomic.AddUint64]. *)
Record Stats : Type := mkStats {
  IPFIXpackets : Z;
  IPFIXbytes : Z;
  Flows4 : Z;
  Flows6 : Z;
  FlowBytes : Z;
  FlowPackets : Z
}.

Definition zero : Stats := mkStats 0 0 0 0 0 0.

(** [atomic.AddUint64(&stats.GlobalStats.X, n)], one function per counter. *)
Definition add_IPFIXpackets (n : Z) (g : Stats) : Stats :=
  mkStats (Go.uint64 (IPFIXpackets g + n)) (IPFIXbytes g) (Flows4 g)
          (Flows6 g) (FlowBytes g) (FlowPackets g).
Definition add_IPFIXbytes (n : Z) (g : Stats) : Stats :=
  mkStats (IPFIXpackets g) (Go.uint64 (IPFIXbytes g + n)) (Flows4 g)
          (Flows6 g) (FlowBytes g) (FlowPackets g).
Definition add_Flows4 (n : Z) (g : Stats) : Stats :=
  mkStats (IPFIXpackets g) (IPFIXbytes g) (Go.uint64 (Flows4 g + n))
          (Flows6 g) (FlowBytes g) (FlowPackets g).
Definition add_Flows6 (n : Z) (g : Stats) : Stats :=
  mkStats (IPFIXpackets g) (IPFIXbytes g) (Flows4 g)
          (Go.uint64 (Flows6 g + n)) (FlowBytes g) (FlowPackets g).
Definition add_FlowBytes (n : Z) (g : Stats) : Stats :=
  mkStats (IPFIXpackets g) (IPFIXbytes g) (Flows4 g)
          (Flows6 g) (Go.uint64 (FlowBytes g + n)) (FlowPackets g).
Definition add_FlowPackets (n : Z) (g : Stats) : Stats :=
  mkStats (IPFIXpackets g) (IPFIXbytes g) (Flows4 g)
          (Flows6 g) (FlowBytes g) (Go.uint64 (FlowPackets g + n)).

End stats.

(** ** Package [convert] *)
Module convert.

Definition byte_val (b : byte) : Z := Z.of_N (Byte.to_N b).

(** Modelled from the spec: [convert.Uint32] is declared outside the two
    source files.  The spec has the scalar fields "decoded as unsigned
    big-endian integers": the bytes are read most significant first, into
    a [uint32]. *)
Definition Uint32 (data : list byte) : Z :=
  Go.uint32 (fold_left (fun acc b => acc * 256 + byte_val b) data 0).

(** Modelled from the spec: [convert.Reverse] is declared outside the two
    source files.  The spec has it reverse the order of the bytes of an
    address ("the byte-order reversal"); it is taken to return the
    reversed sequence and to leave the values of the record as they
    are. *)
Definition Reverse (data : list byte) : list byte := rev data.

End convert.

(** ** Package [ipfix]: what the server uses of the codec's types *)
Module ipfix.

(** Modelled from the spec: the field-type constants are declared outside
    the two source files.  The fifteen constants [generateFieldMap]
    switches on are the first fifteen constructors (Go rejects a switch
    with two equal constant cases, so they are pairwise distinct); every
    other type code [c] is [Unrecognized c]. *)
Inductive FieldType : Type :=
| IPv4SrcAddr | IPv6SrcAddr | IPv4DstAddr | IPv6DstAddr
| InBytes | Protocol | InPkts | InputSnmp | OutputSnmp
| IPv4NextHop | IPv6NextHop | L4SrcPort | L4DstPort | SrcAs | DstAs
| Unrecognized (code : Z).

(** One entry of a template: a field type code and a field length. *)
Record TemplateField : Type := mkTemplateField {
  Type_ : FieldType;
  Length : Z
}.

(** [TemplateRecords]: a template definition, with the identifiers
    [updateTemplateCache] reads through it ([tr.Header.TemplateID] and
    [tr.Packet.Header.DomainID]). *)
Record TemplateRecords : Type := mkTemplateRecords {
  TemplateID : Z;               (* uint16 *)
  Packet_DomainID : Z;          (* uint32 *)
  Records : list TemplateField
}.

(** [FlowDataRecord]: the raw values of one data record, in the order of
    the template's fields. *)
Record FlowDataRecord : Type := mkFlowDataRecord {
  Values : list (list byte)
}.

(** [Set]: a data-record set, its header's [SetID] and its undecoded
    content. *)
Record Set_ : Type := mkSet {
  SetID : Z;                    (* uint16 *)
  Content : list byte
}.

(** [Packet]: a decoded packet, with the header fields the server reads
    and the results of [GetTemplateRecords()] and [DataFlowSets()]. *)
Record Packet : Type := mkPacket {
  DomainID : Z;                 (* uint32 *)
  ExportTime : Z;               (* uint32 *)
  GetTemplateRecords : list TemplateRecords;
  DataFlowSets : list Set_
}.

End ipfix.

(** ** Package [ifserver] *)
Module ifserver.

(** [fieldMap]: what information is at what index in the slice of values
    of a decoded record. *)
Record fieldMap : Type := mkFieldMap {
  srcAddr : Z;
  dstAddr : Z;
  protocol : Z;
  packets : Z;
  size : Z;
  intIn : Z;
  intOut : Z;
  nextHop : Z;
  family : Z;
  vlan : Z;
  ts : Z;
  srcAsn : Z;
  dstAsn : Z;
  srcPort : Z;
  dstPort : Z
}.

(** [var fm fieldMap]: every field is zero. *)
Definition zero_fieldMap : fieldMap := mkFieldMap 0 0 0 0 0 0 0 0 0 0 0 0 0 0 0.

(** [fm.srcAddr = i] *)
Definition set_srcAddr (i : Z) (fm : fieldMap) : fieldMap :=
  mkFieldMap i (dstAddr fm) (protocol fm) (packets fm) (size fm) (intIn
    fm) (intOut fm) (nextHop fm) (family fm) (vlan fm) (ts fm) (srcAsn fm)
    (dstAsn fm) (srcPort fm) (dstPort fm).
(** [fm.dstAddr = i] *)
Definition set_dstAddr (i : Z) (fm : fieldMap) : fieldMap :=
  mkFieldMap (srcAddr fm) i (protocol fm) (packets fm) (size fm) (intIn
    fm) (intOut fm) (nextHop fm) (family fm) (vlan fm) (ts fm) (srcAsn fm)
    (dstAsn fm) (srcPort fm) (dstPort fm).
(** [fm.protocol = i] *)
Definition set_protocol (i : Z) (fm : fieldMap) : fieldMap :=
  mkFieldMap (srcAddr fm) (dstAddr fm) i (packets fm) (size fm) (intIn fm)
    (intOut fm) (nextHop fm) (family fm) (vlan fm) (ts fm) (srcAsn fm)
    (dstAsn fm) (srcPort fm) (dstPort fm).
(** [fm.packets = i] *)
Definition set_packets (i : Z) (fm : fieldMap) : fieldMap :=
  mkFieldMap (srcAddr fm) (dstAddr fm) (protocol fm) i (size fm) (intIn
    fm) (intOut fm) (nextHop fm) (family fm) (vlan fm) (ts fm) (srcAsn fm)
    (dstAsn fm) (srcPort fm) (dstPort fm).
(** [fm.size = i] *)
Definition set_size (i : Z) (fm : fieldMap) : fieldMap :=
  mkFieldMap (srcAddr fm) (dstAddr fm) (protocol fm) (packets fm) i (intIn
    fm) (intOut fm) (nextHop fm) (family fm) (vlan fm) (ts fm) (srcAsn fm)
    (dstAsn fm) (srcPort fm) (dstPort fm).
(** [fm.intIn = i] *)
Definition set_intIn (i : Z) (fm : fieldMap) : fieldMap :=
  mkFieldMap (srcAddr fm) (dstAddr fm) (protocol fm) (packets fm) (size
    fm) i (intOut fm) (nextHop fm) (family fm) (vlan fm) (ts fm) (srcAsn
    fm) (dstAsn fm) (srcPort fm) (dstPort fm).
(** [fm.intOut = i] *)
Definition set_intOut (i : Z) (fm : fieldMap) : fieldMap :=
  mkFieldMap (srcAddr fm) (dstAddr fm) (protocol fm) (packets fm) (size
    fm) (intIn fm) i (nextHop fm) (family fm) (vlan fm) (ts fm) (srcAsn
    fm) (dstAsn fm) (srcPort fm) (dstPort fm).
(** [fm.nextHop = i] *)
Definition set_nextHop (i : Z) (fm : fieldMap) : fieldMap :=
  mkFieldMap (srcAddr fm) (dstAddr fm) (protocol fm) (packets fm) (size
    fm) (intIn fm) (intOut fm) i (family fm) (vlan fm) (ts fm) (srcAsn fm)
    (dstAsn fm) (srcPort fm) (dstPort fm).
(** [fm.family = i] *)
Definition set_family (i : Z) (fm : fieldMap) : fieldMap :=
  mkFieldMap (srcAddr fm) (dstAddr fm) (protocol fm) (packets fm) (size
    fm) (intIn fm) (intOut fm) (nextHop fm) i (vlan fm) (ts fm) (srcAsn
    fm) (dstAsn fm) (srcPort fm) (dstPort fm).
(** [fm.srcAsn = i] *)
Definition set_srcAsn (i : Z) (fm : fieldMap) : fieldMap :=
  mkFieldMap (srcAddr fm) (dstAddr fm) (protocol fm) (packets fm) (size
    fm) (intIn fm) (intOut fm) (nextHop fm) (family fm) (vlan fm) (ts fm)
    i (dstAsn fm) (srcPort fm) (dstPort fm).
(** [fm.dstAsn = i] *)
Definition set_dstAsn (i : Z) (fm : fieldMap) : fieldMap :=
  mkFieldMap (srcAddr fm) (dstAddr fm) (protocol fm) (packets fm) (size
    fm) (intIn fm) (intOut fm) (nextHop fm) (family fm) (vlan fm) (ts fm)
    (srcAsn fm) i (srcPort fm) (dstPort fm).
(** [fm.srcPort = i] *)
Definition set_srcPort (i : Z) (fm : fieldMap) : fieldMap :=
  mkFieldMap (srcAddr fm) (dstAddr fm) (protocol fm) (packets fm) (size
    fm) (intIn fm) (intOut fm) (nextHop fm) (family fm) (vlan fm) (ts fm)
    (srcAsn fm) (dstAsn fm) i (dstPort fm).
(** [fm.dstPort = i] *)
Definition set_dstPort (i : Z) (fm : fieldMap) : fieldMap :=
  mkFieldMap (srcAddr fm) (dstAddr fm) (protocol fm) (packets fm) (size
    fm) (intIn fm) (intOut fm) (nextHop fm) (family fm) (vlan fm) (ts fm)
    (srcAsn fm) (dstAsn fm) (srcPort fm) i.

(** The [switch f.Type] of [generateFieldMap] (lines 229-262) for the
    field [f] at index [i]. *)
Definition resolveField (i : Z) (f : ipfix.TemplateField) (fm : fieldMap)
  : fieldMap :=
  match ipfix.Type_ f with
  | ipfix.IPv4SrcAddr => set_family 4 (set_srcAddr i fm)
  | ipfix.IPv6SrcAddr => set_family 6 (set_srcAddr i fm)
  | ipfix.IPv4DstAddr => set_dstAddr i fm
  | ipfix.IPv6DstAddr => set_dstAddr i fm
  | ipfix.InBytes => set_size i fm
  | ipfix.Protocol => set_protocol i fm
  | ipfix.InPkts => set_packets i fm
  | ipfix.InputSnmp => set_intIn i fm
  | ipfix.OutputSnmp => set_intOut i fm
  | ipfix.IPv4NextHop => set_nextHop i fm
  | ipfix.IPv6NextHop => set_nextHop i fm
  | ipfix.L4SrcPort => set_srcPort i fm
  | ipfix.L4DstPort => set_dstPort i fm
  | ipfix.SrcAs => set_srcAsn i fm
  | ipfix.DstAs => set_dstAsn i fm
  | ipfix.Unrecognized _ => fm
  end.

(** The loop of [generateFieldMap] over the fields [fs], from the counter
    [i] and the map [fm]: [i++], then the switch.  ([i] is an [int]; it
    stays far below [2^63], the number of fields of a template being a
    [uint16].) *)
Definition resolveFields (fs : list ipfix.TemplateField) (i : Z) (fm : fieldMap)
  : Z * fieldMap :=
  fold_left (fun '(i, fm) f => let i := i + 1 in (i, resolveField i f fm))
            fs (i, fm).

(** [generateFieldMap]: [i := -1], the loop, [return &fm]. *)
Definition generateFieldMap (template : ipfix.TemplateRecords) : fieldMap :=
  snd (resolveFields (ipfix.Records template) (-1) zero_fieldMap).

(** Modelled from the spec: [templateCache] (with [newTemplateCache],
    [set] and [get]) is declared outside the two source files.  The spec
    has it map a Template Identity, the triple (exporter address,
    observation domain, template identifier), to the most recent
    definition stored under it: [set] stores or overwrites, [get] gives
    the current definition or absent, and nothing expires. *)
Abbreviation templateCache := (gmap (Z * Z * Z) ipfix.TemplateRecords).
Definition newTemplateCache : templateCache := ∅.
Definition tmplCache_set (c : templateCache) (addr domainID templateID : Z)
    (tr : ipfix.TemplateRecords) : templateCache :=
  <[(addr, domainID, templateID) := tr]> c.
Definition tmplCache_get (c : templateCache) (addr domainID templateID : Z)
  : option ipfix.TemplateRecords :=
  c !! (addr, domainID, templateID).

(** [IPFIXServer].  [Output] is the list of the flows sent on the output
    channel so far, oldest first. *)
Record IPFIXServer : Type := mkIPFIXServer {
  tmplCache : templateCache;
  Output : list netflow.Flow;
  debug : Z;
  bgpAugment : bool
}.

(** [ifs.Output <- &fl] *)
Definition send (fl : netflow.Flow) (ifs : IPFIXServer) : IPFIXServer :=
  mkIPFIXServer (tmplCache ifs) (Output ifs ++ [fl]) (debug ifs) (bgpAugment ifs).

(** [ifs.tmplCache.set(...)] *)
Definition with_tmplCache (c : templateCache) (ifs : IPFIXServer) : IPFIXServer :=
  mkIPFIXServer c (Output ifs) (debug ifs) (bgpAugment ifs).

(** The server and the global counters: the state a worker acts on. *)
Definition State : Type := IPFIXServer * stats.Stats.

(** Lines 168-186 of [processFlowSet]: the flow built from the record
    [r] with the field map [fm].  Each [r.Values[...]] panics when the
    index is out of range. *)
Definition newFlow (bgpAugment : bool) (fm : fieldMap)
    (r : ipfix.FlowDataRecord) (agent : net.IP) (ts : Z)
  : Go.result netflow.Flow :=
  let v := ipfix.Values r in
  let* vPackets := Go.index v (packets fm) in
  let* vSize := Go.index v (size fm) in
  let* vProtocol := Go.index v (protocol fm) in
  let* vIntIn := Go.index v (intIn fm) in
  let* vIntOut := Go.index v (intOut fm) in
  let* vSrcPort := Go.index v (srcPort fm) in
  let* vDstPort := Go.index v (dstPort fm) in
  let* vSrcAddr := Go.index v (srcAddr fm) in
  let* vDstAddr := Go.index v (dstAddr fm) in
  let* vNextHop := Go.index v (nextHop fm) in
  let* vAs :=
    (if negb bgpAugment then
       let* vSrcAs := Go.index v (srcAsn fm) in
       let* vDstAs := Go.index v (dstAsn fm) in
       Go.Ok (convert.Uint32 vSrcAs, convert.Uint32 vDstAs)
     else Go.Ok (0, 0)) in
  Go.Ok {|
    netflow.Router := agent;
    netflow.Timestamp := ts;
    netflow.Family := Go.uint32 (family fm);
    netflow.Packets := convert.Uint32 vPackets;
    netflow.Size := Go.uint64 (convert.Uint32 vSize);
    netflow.Protocol := convert.Uint32 vProtocol;
    netflow.IntIn := convert.Uint32 vIntIn;
    netflow.IntOut := convert.Uint32 vIntOut;
    netflow.SrcPort := convert.Uint32 vSrcPort;
    netflow.DstPort := convert.Uint32 vDstPort;
    netflow.SrcAddr := convert.Reverse vSrcAddr;
    netflow.DstAddr := convert.Reverse vDstAddr;
    netflow.NextHop := convert.Reverse vNextHop;
    netflow.SrcAs := fst vAs;
    netflow.DstAs := snd vAs
  |}.

(** The body of the loop of [processFlowSet] (lines 159-192) for the
    record [r].  ([glog] and [Dump] only print.) *)
Definition processRecord (fm : fieldMap) (agent : net.IP) (ts : Z)
    (st : State) (r : ipfix.FlowDataRecord) : Go.result State :=
  let '(ifs, g) := st in
  if family fm =? 4 then
    let g := stats.add_Flows4 1 g in
    let* fl := newFlow (bgpAugment ifs) fm r agent ts in
    Go.Ok (send fl ifs, g)
  else if family fm =? 6 then
    let g := stats.add_Flows6 1 g in
    let* fl := newFlow (bgpAugment ifs) fm r agent ts in
    Go.Ok (send fl ifs, g)
  else Go.Ok st.

(** [for _, r := range records { ... }] *)
Fixpoint processRecords (fm : fieldMap) (agent : net.IP) (ts : Z)
    (records : list ipfix.FlowDataRecord) (st : State) : Go.result State :=
  match records with
  | [] => Go.Ok st
  | r :: records =>
      let* st := processRecord fm agent ts st r in
      processRecords fm agent ts records st
  end.

(** [processFlowSet]: flows from the records of one set, sent on
    [Output]. *)
Definition processFlowSet (template : ipfix.TemplateRecords)
    (records : list ipfix.FlowDataRecord) (agent : net.IP) (ts : Z)
    (st : State) : Go.result State :=
  let fm := generateFieldMap template in
  processRecords fm agent ts records st.

(** [updateTemplateCache]: one [set] per template record of the packet. *)
Definition updateTemplateCache (remote : net.IP) (p : ipfix.Packet)
    (ifs : IPFIXServer) : IPFIXServer :=
  fold_left
    (fun ifs tr =>
       with_tmplCache
         (tmplCache_set (tmplCache ifs) (convert.Uint32 remote)
            (ipfix.Packet_DomainID tr) (ipfix.TemplateID tr) tr)
         ifs)
    (ipfix.GetTemplateRecords p) ifs.

(** [makeTemplateKey]: the text of a Template Identity, built in the
    scratch slice [keyParts]; the key and the slice afterwards.  (The
    identifiers are a [uint32] and a [uint16]: [int(...)] keeps their
    value.) *)
Definition makeTemplateKey (addr : string) (sourceID templateID : Z)
    (keyParts : list string) : Go.result (string * list string) :=
  let* keyParts := Go.store keyParts 0 addr in
  let* keyParts := Go.store keyParts 1 (strconv.Itoa sourceID) in
  let* keyParts := Go.store keyParts 2 (strconv.Itoa templateID) in
  Go.Ok (strings_.Join keyParts "|", keyParts).

(** What [conn.ReadFromUDP] returns: an error, or the sender's address
    and the [length] bytes read into the buffer. *)
Inductive Read : Type :=
| ReadError
| Datagram (remote : net.IP) (data : list byte).

Section Codec.

(** [ipfix.Decode(buffer, remote)], the codec: a packet, or an error. *)
Variable Decode : list byte -> net.IP -> option ipfix.Packet.

(** [template.DecodeFlowSet(set)], the codec: the records of a set read
    with a template, or [nil]. *)
Variable DecodeFlowSet :
  ipfix.TemplateRecords -> ipfix.Set_ -> option (list ipfix.FlowDataRecord).

(** [processFlowSets]: the loop over the data-record sets of a packet.
    With no template in the cache the set is skipped ([makeTemplateKey]
    only builds the text of the warning), and so is a set that does not
    decode. *)
Fixpoint processFlowSets (remote : net.IP) (domainID : Z)
    (flowSets : list ipfix.Set_) (ts : Z) (st : State) : Go.result State :=
  match flowSets with
  | [] => Go.Ok st
  | set :: flowSets =>
      match tmplCache_get (tmplCache (fst st)) (convert.Uint32 remote)
                          domainID (ipfix.SetID set) with
      | None => processFlowSets remote domainID flowSets ts st
      | Some template =>
          match DecodeFlowSet template set with
          | None => processFlowSets remote domainID flowSets ts st
          | Some records =>
              let* st := processFlowSet template records remote ts st in
              processFlowSets remote domainID flowSets ts st
          end
      end
  end.

(** [processPacket]: decode, update the template cache, process the
    data-record sets. *)
Definition processPacket (remote : net.IP) (buffer : list byte) (st : State)
  : Go.result State :=
  match Decode buffer remote with
  | None => Go.Ok st
  | Some packet =>
      let st := (updateTemplateCache remote packet (fst st), snd st) in
      processFlowSets remote (ipfix.DomainID packet)
        (ipfix.DataFlowSets packet)
        (Go.int64 (ipfix.ExportTime packet)) st
  end.

(** One iteration of the loop of [packetWorker] (lines 98-112), on what
    [ReadFromUDP] returned. *)
Definition packetWorker_iter (rd : Read) (st : State) : Go.result State :=
  match rd with
  | ReadError => Go.Ok st
  | Datagram remote data =>
      let '(ifs, g) := st in
      let g := stats.add_IPFIXpackets 1 g in
      let g := stats.add_IPFIXbytes (Go.uint64 (Z.of_nat (length data))) g in
      match net.To4 remote with
      | None => Go.Ok (ifs, g)
      | Some remote => processPacket remote data (ifs, g)
      end
  end.

(** The loop of [packetWorker] over the results of the successive
    reads [rds]. *)
Fixpoint packetWorker_run (rds : list Read) (st : State) : Go.result State :=
  match rds with
  | [] => Go.Ok st
  | rd :: rds =>
      let* st := packetWorker_iter rd st in
      packetWorker_run rds st
  end.

End Codec.

End ifserver.

(** ** Package [annotator] *)
Module annotator.

(** The [Annotator] struct: the fields a worker reads.  The channels are
    the worker's argument (the flow received) and result (the flows sent
    on [output]); [birdAnnotator] is the [Augment] parameter below. *)
Record Annotator : Type := mkAnnotator {
  aggregation : Z;    (* int64 *)
  bgpAugment : bool
}.

(** [t - (t % aggregation)], the alignment of line 62. *)
Definition align (t aggregation : Z) : Go.result Z :=
  let* r := Go.rem64 t aggregation in
  Go.Ok (Go.sub64 t r).

Section Worker.

(** [bird.Annotator.Augment], the routing-table collaborator: it fills
    in fields of the flow it is given. *)
Variable Augment : netflow.Flow -> netflow.Flow.

(** One iteration of the worker loop of [Init] (lines 59-74) on the flow
    [fl] read from the input channel: the flows sent on [output] so far
    and the global counters, after the iteration. *)
Definition worker_iter (a : Annotator) (fl : netflow.Flow)
    (output : list netflow.Flow) (g : stats.Stats)
  : Go.result (list netflow.Flow * stats.Stats) :=
  let* t := align (netflow.Timestamp fl) (aggregation a) in
  let fl := netflow.set_Timestamp t fl in
  let g := stats.add_FlowBytes (netflow.Size fl) g in
  let g := stats.add_FlowPackets (Go.uint64 (netflow.Packets fl)) g in
  let fl := if bgpAugment a then Augment fl else fl in
  Go.Ok (output ++ [fl], g).

(** The worker loop of [Init] over the flows [fls] read from the input
    channel, in the order read. *)
Fixpoint worker_run (a : Annotator) (fls : list netflow.Flow)
    (output : list netflow.Flow) (g : stats.Stats)
  : Go.result (list netflow.Flow * stats.Stats) :=
  match fls with
  | [] => Go.Ok (output, g)
  | fl :: fls =>
      let* r := worker_iter a fl output g in
      worker_run a fls (fst r) (snd r)
  end.

End Worker.

End annotator.

(** ** The properties, as the specification words them *)
Module Spec.

(** Re-aligning an aligned timestamp is a no-op. *)
Definition align_idempotent (t p : Z) : Prop :=
  exists a, annotator.align t p = Go.Ok a /\ annotator.align a p = Go.Ok a.

(** [align(t,p) <= t < align(t,p) + p] *)
Definition align_floor (t p : Z) : Prop :=
  exists a, annotator.align t p = Go.Ok a /\ a <= t < a + p.

(** Two flows that agree on every field but [Timestamp]. *)
Definition same_but_Timestamp (fl fl' : netflow.Flow) : Prop :=
  netflow.Router fl' = netflow.Router fl
  /\ netflow.Family fl' = netflow.Family fl
  /\ netflow.Packets fl' = netflow.Packets fl
  /\ netflow.Size fl' = netflow.Size fl
  /\ netflow.Protocol fl' = netflow.Protocol fl
  /\ netflow.IntIn fl' = netflow.IntIn fl
  /\ netflow.IntOut fl' = netflow.IntOut fl
  /\ netflow.SrcPort fl' = netflow.SrcPort fl
  /\ netflow.DstPort fl' = netflow.DstPort fl
  /\ netflow.SrcAddr fl' = netflow.SrcAddr fl
  /\ netflow.DstAddr fl' = netflow.DstAddr fl
  /\ netflow.NextHop fl' = netflow.NextHop fl
  /\ netflow.SrcAs fl' = netflow.SrcAs fl
  /\ netflow.DstAs fl' = netflow.DstAs fl.

(** The semantic fields of a Field Layout. *)
Inductive Slot : Type :=
| SrcAddress | DstAddress | ProtocolNumber | PacketCount | ByteCount
| IngressInterface | EgressInterface | NextHopAddress
| SourcePort | DestinationPort | SourceAS | DestinationAS.

(** The slot a recognized field type is recorded in: the IPv4 and IPv6
    variants of an address share the slot of that address. *)
Definition slot_of (ty : ipfix.FieldType) : option Slot :=
  match ty with
  | ipfix.IPv4SrcAddr | ipfix.IPv6SrcAddr => Some SrcAddress
  | ipfix.IPv4DstAddr | ipfix.IPv6DstAddr => Some DstAddress
  | ipfix.InBytes => Some ByteCount
  | ipfix.Protocol => Some ProtocolNumber
  | ipfix.InPkts => Some PacketCount
  | ipfix.InputSnmp => Some IngressInterface
  | ipfix.OutputSnmp => Some EgressInterface
  | ipfix.IPv4NextHop | ipfix.IPv6NextHop => Some NextHopAddress
  | ipfix.L4SrcPort => Some SourcePort
  | ipfix.L4DstPort => Some DestinationPort
  | ipfix.SrcAs => Some SourceAS
  | ipfix.DstAs => Some DestinationAS
  | ipfix.Unrecognized _ => None
  end.

Definition slot_value (s : Slot) (fm : ifserver.fieldMap) : Z :=
  match s with
  | SrcAddress => ifserver.srcAddr fm
  | DstAddress => ifserver.dstAddr fm
  | ProtocolNumber => ifserver.protocol fm
  | PacketCount => ifserver.packets fm
  | ByteCount => ifserver.size fm
  | IngressInterface => ifserver.intIn fm
  | EgressInterface => ifserver.intOut fm
  | NextHopAddress => ifserver.nextHop fm
  | SourcePort => ifserver.srcPort fm
  | DestinationPort => ifserver.dstPort fm
  | SourceAS => ifserver.srcAsn fm
  | DestinationAS => ifserver.dstAsn fm
  end.

#[global] Instance Slot_eq_dec : EqDecision Slot.
Proof. solve_decision. Defined.

(** The field type [ty] occurs at two positions of [fs] at least. *)
Definition occurs_twice (ty : ipfix.FieldType) (fs : list ipfix.TemplateField)
  : Prop :=
  exists (i j : nat) (f f' : ipfix.TemplateField),
    i <> j /\ fs !! i = Some f /\ fs !! j = Some f'
    /\ ipfix.Type_ f = ty /\ ipfix.Type_ f' = ty.

(** [i] is the position of the last field of [fs] whose type satisfies
    [P]. *)
Definition last_occurrence (P : ipfix.FieldType -> Prop)
    (fs : list ipfix.TemplateField) (i : nat) : Prop :=
  (exists f, fs !! i = Some f /\ P (ipfix.Type_ f))
  /\ forall (j : nat) (f : ipfix.TemplateField),
       (i < j)%nat -> fs !! j = Some f -> ~ P (ipfix.Type_ f).

(** "If a field type appears more than once in a template, the last
    occurrence's index wins", for the field type [ty]. *)
Definition last_occurrence_wins (template : ipfix.TemplateRecords)
    (ty : ipfix.FieldType) : Prop :=
  forall (s : Slot) (i : nat),
    slot_of ty = Some s ->
    occurs_twice ty (ipfix.Records template) ->
    last_occurrence (eq ty) (ipfix.Records template) i ->
    slot_value s (ifserver.generateFieldMap template) = Z.of_nat i.

(** The field type [ty] does not occur in the template. *)
Definition absent (ty : ipfix.FieldType) (template : ipfix.TemplateRecords)
  : Prop :=
  forall f, f ∈ ipfix.Records template -> ipfix.Type_ f <> ty.

(** A record decoded against a template has one value per field. *)
Definition decoded_against (template : ipfix.TemplateRecords)
    (r : ipfix.FlowDataRecord) : Prop :=
  length (ipfix.Values r) = length (ipfix.Records template).

(** "A record with a packet/byte count field absent in the layout yields
    a zero value for that field", for the flow built from [r]. *)
Definition absent_count_is_zero (bgpAugment : bool)
    (template : ipfix.TemplateRecords) (r : ipfix.FlowDataRecord)
    (agent : net.IP) (ts : Z) : Prop :=
  forall fl,
    ifserver.newFlow bgpAugment (ifserver.generateFieldMap template)
                     r agent ts = Go.Ok fl ->
    (absent ipfix.InPkts template -> netflow.Packets fl = 0)
    /\ (absent ipfix.InBytes template -> netflow.Size fl = 0).

(** The cache after the [set] calls of [history], oldest first. *)
Definition cache_after (history : list (Z * Z * Z * ipfix.TemplateRecords))
  : ifserver.templateCache :=
  fold_left (fun c '(a, d, t, tr) => ifserver.tmplCache_set c a d t tr)
            history ifserver.newTemplateCache.

(** No [set] of [history] was for the identity [id]. *)
Definition never_registered
    (history : list (Z * Z * Z * ipfix.TemplateRecords)) (id : Z * Z * Z)
  : Prop :=
  forall e, e ∈ history -> fst e <> id.

(** The global counters, by name. *)
Inductive Counter : Type :=
| CIPFIXpackets | CIPFIXbytes | CFlows4 | CFlows6 | CFlowBytes | CFlowPackets.

Definition read (c : Counter) (g : stats.Stats) : Z :=
  match c with
  | CIPFIXpackets => stats.IPFIXpackets g
  | CIPFIXbytes => stats.IPFIXbytes g
  | CFlows4 => stats.Flows4 g
  | CFlows6 => stats.Flows6 g
  | CFlowBytes => stats.FlowBytes g
  | CFlowPackets => stats.FlowPackets g
  end.

(** Some counter tells a rejected datagram from an accepted one: its
    value after the rejected datagram is not its value after the
    accepted one. *)
Definition rejection_recorded (g_rejected g_accepted : stats.Stats) : Prop :=
  exists c, read c g_rejected <> read c g_accepted.

#[global] Instance FieldType_eq_dec : EqDecision ipfix.FieldType.
Proof. solve_decision. Defined.

(** The slots [processFlowSet] reads a record at: all but the two AS
    slots always, the AS slots when BGP augmentation is off. *)
Definition is_read (bgpAugment : bool) (s : Slot) : bool :=
  match s with
  | SourceAS | DestinationAS => negb bgpAugment
  | _ => true
  end.

(** The record has a value for every field of the template (and maybe
    more). *)
Definition long_enough (template : ipfix.TemplateRecords)
    (r : ipfix.FlowDataRecord) : Prop :=
  (length (ipfix.Records template) <= length (ipfix.Values r))%nat.

(** The character [c] occurs in the string [s]. *)
Fixpoint has_char (c : Ascii.ascii) (s : string) : bool :=
  match s with
  | EmptyString => false
  | String a s => Ascii.eqb a c || has_char c s
  end.

(** The template record [tr] announces the identity with domain [d]
    and template identifier [t]. *)
Definition announces (d t : Z) (tr : ipfix.TemplateRecords) : bool :=
  (ipfix.Packet_DomainID tr =? d) && (ipfix.TemplateID tr =? t).

(** The last of the template records [trs] that announces the identity. *)
Definition last_announced (trs : list ipfix.TemplateRecords) (d t : Z)
  : option ipfix.TemplateRecords :=
  last (filter (fun tr => announces d t tr = true) trs).

(** The datagrams among the results of a series of reads, and their
    lengths as the worker counts them. *)
Definition received_packets (rds : list ifserver.Read) : Z :=
  foldr (fun rd acc =>
           match rd with
           | ifserver.ReadError => acc
           | ifserver.Datagram _ _ => 1 + acc
           end) 0 rds.

Definition received_bytes (rds : list ifserver.Read) : Z :=
  foldr (fun rd acc =>
           match rd with
           | ifserver.ReadError => acc
           | ifserver.Datagram _ data =>
               Go.uint64 (Z.of_nat (length data)) + acc
           end) 0 rds.

(** The 16-byte IPv4-mapped form of a 4-byte address. *)
Definition mapped (ip4 : net.IP) : net.IP :=
  replicate 10 x00 ++ [xff; xff] ++ ip4.

(** What processing decoded data may change of the state: flows are
    added at the end of [Output], and nothing else is touched but the
    template cache and the two per-family flow counters. *)
Definition extends (st st' : ifserver.State) : Prop :=
  ifserver.Output (fst st) `prefix_of` ifserver.Output (fst st')
  /\ ifserver.debug (fst st') = ifserver.debug (fst st)
  /\ ifserver.bgpAugment (fst st') = ifserver.bgpAugment (fst st)
  /\ stats.IPFIXpackets (snd st') = stats.IPFIXpackets (snd st)
  /\ stats.IPFIXbytes (snd st') = stats.IPFIXbytes (snd st)
  /\ stats.FlowBytes (snd st') = stats.FlowBytes (snd st)
  /\ stats.FlowPackets (snd st') = stats.FlowPackets (snd st).

(** The sum of a quantity over a list of flows. *)
Definition total (f : netflow.Flow -> Z) (fls : list netflow.Flow) : Z :=
  foldr (fun fl acc => f fl + acc) 0 fls.

(** What a worker of the annotation stage forwards for the flow [fl]:
    the flow with its timestamp aligned, augmented when augmentation is
    on. *)
Definition annotated (Augment : netflow.Flow -> netflow.Flow)
    (a : annotator.Annotator) (fl : netflow.Flow) : netflow.Flow :=
  let t := netflow.Timestamp fl in
  let fl := netflow.set_Timestamp (t - Z.rem t (annotator.aggregation a)) fl in
  if annotator.bgpAugment a then Augment fl else fl.

End Spec.

(** ** Sample data *)
Module Samples.

Definition field (ty : ipfix.FieldType) (len : Z) : ipfix.TemplateField :=
  ipfix.mkTemplateField ty len.

(** The template of the spec's scenario: IPv4 source address, IPv4
    destination address, byte count, packet count, protocol. *)
Definition scenario_template : ipfix.TemplateRecords :=
  ipfix.mkTemplateRecords 256 0
    [field ipfix.IPv4SrcAddr 4; field ipfix.IPv4DstAddr 4;
     field ipfix.InBytes 4; field ipfix.InPkts 4; field ipfix.Protocol 1].

(** A record for it: 10.0.0.1 and 10.0.0.2 (on the wire in reversed byte
    order), 1500 bytes, 1 packet, protocol 6. *)
Definition scenario_record : ipfix.FlowDataRecord :=
  ipfix.mkFlowDataRecord
    [[x01; x00; x00; x0a]; [x02; x00; x00; x0a];
     [x00; x00; x05; xdc]; [x00; x00; x00; x01]; [x06]].

(** A template with neither a packet count nor a byte count. *)
Definition no_counts_template : ipfix.TemplateRecords :=
  ipfix.mkTemplateRecords 257 0
    [field ipfix.IPv4SrcAddr 4; field ipfix.IPv4DstAddr 4;
     field ipfix.Protocol 1].

Definition no_counts_record : ipfix.FlowDataRecord :=
  ipfix.mkFlowDataRecord
    [[x01; x00; x00; x0a]; [x02; x00; x00; x0a]; [x06]].

(** A template with the AS numbers, and a record for it: AS 64500 and
    AS 64501. *)
Definition as_template : ipfix.TemplateRecords :=
  ipfix.mkTemplateRecords 261 0
    [field ipfix.IPv4SrcAddr 4; field ipfix.SrcAs 4; field ipfix.DstAs 4].

Definition as_record : ipfix.FlowDataRecord :=
  ipfix.mkFlowDataRecord
    [[x01; x00; x00; x0a]; [x00; x00; xfb; xf4]; [x00; x00; xfb; xf5]].

(** A template with the packet count twice. *)
Definition twice_template : ipfix.TemplateRecords :=
  ipfix.mkTemplateRecords 258 0
    [field ipfix.IPv4SrcAddr 4; field ipfix.InPkts 4; field ipfix.InPkts 8].

(** A template with the IPv4 source address twice, then the IPv6 source
    address. *)
Definition mixed_template : ipfix.TemplateRecords :=
  ipfix.mkTemplateRecords 259 0
    [field ipfix.IPv4SrcAddr 4; field ipfix.IPv4SrcAddr 4;
     field ipfix.IPv6SrcAddr 16].

Definition a_flow : netflow.Flow :=
  netflow.mkFlow [x0a; x00; x00; xfe] 1234567 4 1 1500 6 2 3 443 51000
                 [x0a; x00; x00; x01] [x0a; x00; x00; x02] [] 64500 64501.

(** The exporter 10.0.0.254, as a 4-byte address and as the 16-byte
    IPv4-mapped address, and the IPv6 exporter 2001:db8::1. *)
Definition exporter4 : net.IP := [x0a; x00; x00; xfe].
Definition exporter4_mapped : net.IP :=
  [x00; x00; x00; x00; x00; x00; x00; x00; x00; x00; xff; xff;
   x0a; x00; x00; xfe].
Definition exporter6 : net.IP :=
  [x20; x01; x0d; xb8; x00; x00; x00; x00; x00; x00; x00; x00;
   x00; x00; x00; x01].

(** A server that has seen nothing yet. *)
Definition fresh_server (bgpAugment : bool) : ifserver.IPFIXServer :=
  ifserver.mkIPFIXServer ifserver.newTemplateCache [] 0 bgpAugment.

(** A codec that decodes nothing: every datagram is a decoding error. *)
Definition no_Decode : list byte -> net.IP -> option ipfix.Packet :=
  fun _ _ => None.
Definition no_DecodeFlowSet :
  ipfix.TemplateRecords -> ipfix.Set_ -> option (list ipfix.FlowDataRecord) :=
  fun _ _ => None.

(** A packet that announces the scenario template and carries one data
    set for it, and a codec that decodes every datagram to this packet
    and every set to one scenario record. *)
Definition scenario_packet : ipfix.Packet :=
  ipfix.mkPacket 0 1500000000 [scenario_template] [ipfix.mkSet 256 [x00]].
Definition scenario_Decode : list byte -> net.IP -> option ipfix.Packet :=
  fun _ _ => Some scenario_packet.
Definition scenario_DecodeFlowSet :
  ipfix.TemplateRecords -> ipfix.Set_ -> option (list ipfix.FlowDataRecord) :=
  fun _ _ => Some [scenario_record].

End Samples.

(* ===================================================================== *)
(** * Part II: the properties *)
(* ===================================================================== *)

(** ** Fixed-width arithmetic *)
Module GoFacts.

Lemma int64_small (x : Z) : Go.is_int64 x -> Go.int64 x = x.
Proof.
  unfold Go.is_int64, Go.int64. intros Hx.
  rewrite Z.mod_small by lia. lia.
Qed.

Lemma uint32_small (x : Z) : 0 <= x < 2 ^ 32 -> Go.uint32 x = x.
Proof. intros Hx. unfold Go.uint32. now apply Z.mod_small. Qed.

(** The truncated remainder lies between zero and the dividend. *)
Lemma rem_nonneg_le (x y : Z) :
  y <> 0 -> 0 <= x -> 0 <= Z.rem x y <= x.
Proof.
  intros Hy Hx. split; [now apply Z.rem_nonneg|].
  rewrite <- (Z.rem_abs_r x y) by assumption.
  apply Z.rem_le; lia.
Qed.

Lemma rem_between (x y : Z) :
  y <> 0 ->
  (0 <= x -> 0 <= Z.rem x y <= x) /\ (x <= 0 -> x <= Z.rem x y <= 0).
Proof.
  intros Hy. split; intros Hx.
  - now apply rem_nonneg_le.
  - pose proof (Z.rem_opp_l x y Hy) as Ho.
    pose proof (rem_nonneg_le (- x) y Hy ltac:(lia)) as Hb.
    lia.
Qed.

Lemma rem64_nonzero (x y : Z) :
  Go.is_int64 x -> y <> 0 -> Go.rem64 x y = Go.Ok (Z.rem x y).
Proof.
  intros Hx Hy. unfold Go.rem64.
  destruct (Z.eqb_spec y 0) as [|_]; [contradiction|].
  f_equal. apply int64_small.
  destruct (rem_between x y Hy) as [Hp Hn].
  unfold Go.is_int64 in *.
  destruct (Z.le_ge_cases 0 x); [specialize (Hp ltac:(assumption))|
                                 specialize (Hn ltac:(assumption))]; lia.
Qed.

Lemma uint64_add_l (x y : Z) : Go.uint64 (Go.uint64 x + y) = Go.uint64 (x + y).
Proof. unfold Go.uint64. apply Zplus_mod_idemp_l. Qed.

End GoFacts.

(** ** The annotation stage *)
Module AnnotatorFacts.

(** With a non-zero interval the alignment does not wrap around: it is
    the mathematical [t - rem t p]. *)
Lemma align_nonzero (t p : Z) :
  Go.is_int64 t -> p <> 0 -> annotator.align t p = Go.Ok (t - Z.rem t p).
Proof.
  intros Ht Hp. unfold annotator.align.
  rewrite GoFacts.rem64_nonzero by assumption. cbn.
  f_equal. unfold Go.sub64. apply GoFacts.int64_small.
  destruct (GoFacts.rem_between t p Hp) as [Hpos Hneg].
  unfold Go.is_int64 in *.
  destruct (Z.le_ge_cases 0 t) as [H|H]; [specialize (Hpos H)|
                                          specialize (Hneg ltac:(lia))]; lia.
Qed.

Lemma align_zero (t : Z) : annotator.align t 0 = Go.Panic.
Proof. reflexivity. Qed.

(** The aligned timestamp is a multiple of the interval, on the side of
    zero of [t]. *)
Lemma aligned_multiple (t p : Z) :
  p <> 0 -> t - Z.rem t p = Z.quot t p * p.
Proof. intros Hp. pose proof (Z.quot_rem' t p). lia. Qed.

Lemma aligned_in_range (t p : Z) :
  Go.is_int64 t -> p <> 0 -> Go.is_int64 (t - Z.rem t p).
Proof.
  intros Ht Hp.
  destruct (GoFacts.rem_between t p Hp) as [Hpos Hneg].
  unfold Go.is_int64 in *.
  destruct (Z.le_ge_cases 0 t) as [H|H]; [specialize (Hpos H)|
                                          specialize (Hneg ltac:(lia))]; lia.
Qed.

Lemma align_twice (t p a : Z) :
  Go.is_int64 t -> p <> 0 ->
  annotator.align t p = Go.Ok a -> annotator.align a p = Go.Ok a.
Proof.
  intros Ht Hp Ha.
  rewrite align_nonzero in Ha by assumption.
  injection Ha as <-.
  rewrite align_nonzero by (try apply aligned_in_range; assumption).
  rewrite (aligned_multiple t p Hp) at 2.
  rewrite Z.rem_mul by assumption.
  f_equal. lia.
Qed.

Example align_example : annotator.align 1234567 300 = Go.Ok 1234500.
Proof. reflexivity. Qed.

Example align_negative_example : annotator.align (-1) 10 = Go.Ok 0.
Proof. reflexivity. Qed.

(** C1, as stated, fails: Go's [%] truncates towards zero, so a negative
    timestamp is aligned upwards.  At [t = -1] and [p = 10] the aligned
    timestamp is [0], which is not [<= t]. *)
Lemma align_floor_fails_below_zero : ~ Spec.align_floor (-1) 10.
Proof.
  intros (a & Ha & Hle & _).
  rewrite align_negative_example in Ha. injection Ha as <-. lia.
Qed.

(** C1, amended: for every [int64] timestamp [t] and interval [p > 0],
    the alignment [t - (t % p)] is idempotent, and for [t >= 0] it
    satisfies [align(t,p) <= t < align(t,p) + p]. *)
Theorem align_idempotent_and_floor (t p : Z) :
  Go.is_int64 t -> 0 < p ->
  Spec.align_idempotent t p /\ (0 <= t -> Spec.align_floor t p).
Proof.
  intros Ht Hp.
  assert (p <> 0) as Hnz by lia.
  pose proof (align_nonzero t p Ht Hnz) as Ha.
  split.
  - exists (t - Z.rem t p). split; [assumption|].
    now apply (align_twice t p).
  - intros H0. exists (t - Z.rem t p). split; [assumption|].
    pose proof (Z.rem_bound_pos t p H0 Hp). lia.
Qed.

Lemma align_idempotent_and_floor_witness :
  Spec.align_idempotent 1234567 300 /\ Spec.align_floor 1234567 300.
Proof.
  destruct (align_idempotent_and_floor 1234567 300) as [Hidem Hfloor].
  - unfold Go.is_int64. lia.
  - lia.
  - split; [exact Hidem|]. apply Hfloor. lia.
Defined.

Section Worker.

Variable Augment : netflow.Flow -> netflow.Flow.

(** C10: the alignment has no guard on the interval.  With
    [aggregation == 0] every iteration of the worker ends in the
    division-by-zero panic, whatever the flow; with [aggregation != 0]
    the panic is not reached, in the alignment or in the iteration. *)
Theorem worker_panics_iff_zero_interval
    (a : annotator.Annotator) (fl : netflow.Flow)
    (output : list netflow.Flow) (g : stats.Stats) :
  (annotator.aggregation a = 0 ->
   annotator.align (netflow.Timestamp fl) (annotator.aggregation a) = Go.Panic
   /\ annotator.worker_iter Augment a fl output g = Go.Panic)
  /\ (annotator.aggregation a <> 0 ->
      annotator.align (netflow.Timestamp fl) (annotator.aggregation a) <> Go.Panic
      /\ annotator.worker_iter Augment a fl output g <> Go.Panic).
Proof.
  unfold annotator.worker_iter, annotator.align, Go.rem64.
  split; intros H.
  - rewrite H. split; reflexivity.
  - destruct (Z.eqb_spec (annotator.aggregation a) 0) as [|_];
      [contradiction|].
    cbn. split; discriminate.
Qed.

(** C9: with BGP augmentation disabled (and a non-zero interval), the
    flow a worker sends on the output channel is the flow it received
    with only [Timestamp] changed, to the aligned timestamp. *)
Theorem worker_changes_only_Timestamp
    (a : annotator.Annotator) (fl : netflow.Flow)
    (output : list netflow.Flow) (g : stats.Stats) :
  annotator.bgpAugment a = false ->
  annotator.aggregation a <> 0 ->
  exists fl' g',
    annotator.worker_iter Augment a fl output g = Go.Ok (output ++ [fl'], g')
    /\ Spec.same_but_Timestamp fl fl'
    /\ annotator.align (netflow.Timestamp fl) (annotator.aggregation a)
       = Go.Ok (netflow.Timestamp fl').
Proof.
  intros Hbgp Hagg.
  unfold annotator.worker_iter, annotator.align, Go.rem64.
  destruct (Z.eqb_spec (annotator.aggregation a) 0) as [|_];
    [contradiction|].
  rewrite Hbgp. cbn.
  eexists _, _. split; [reflexivity|].
  split; [|reflexivity].
  unfold Spec.same_but_Timestamp. cbn. repeat split.
Qed.

End Worker.

Lemma worker_panics_iff_zero_interval_witness :
  (annotator.align 1234567 0 = Go.Panic
   /\ annotator.worker_iter id (annotator.mkAnnotator 0 false)
        Samples.a_flow [] stats.zero = Go.Panic)
  /\ (annotator.align 1234567 300 <> Go.Panic
      /\ annotator.worker_iter id (annotator.mkAnnotator 300 false)
           Samples.a_flow [] stats.zero <> Go.Panic).
Proof.
  split.
  - apply (worker_panics_iff_zero_interval id
             (annotator.mkAnnotator 0 false) Samples.a_flow [] stats.zero).
    reflexivity.
  - apply (worker_panics_iff_zero_interval id
             (annotator.mkAnnotator 300 false) Samples.a_flow [] stats.zero).
    cbn. lia.
Defined.

Lemma worker_changes_only_Timestamp_witness :
  exists fl' g',
    annotator.worker_iter id (annotator.mkAnnotator 300 false) Samples.a_flow []
      stats.zero = Go.Ok ([] ++ [fl'], g')
    /\ Spec.same_but_Timestamp Samples.a_flow fl'
    /\ annotator.align (netflow.Timestamp Samples.a_flow) 300
       = Go.Ok (netflow.Timestamp fl').
Proof.
  apply (worker_changes_only_Timestamp id (annotator.mkAnnotator 300 false)
           Samples.a_flow [] stats.zero).
  - reflexivity.
  - cbn. lia.
Defined.

End AnnotatorFacts.

(** ** The field layout resolver *)
Module FieldMapFacts.

Import ifserver.

Lemma resolveFields_app (fs gs : list ipfix.TemplateField) (i : Z)
    (fm : fieldMap) :
  resolveFields (fs ++ gs) i fm
  = resolveFields gs (fst (resolveFields fs i fm))
                     (snd (resolveFields fs i fm)).
Proof.
  unfold resolveFields. rewrite fold_left_app.
  now destruct (fold_left _ fs (i, fm)).
Qed.

(** The counter is the index of the field the loop looks at. *)
Lemma resolveFields_counter (fs : list ipfix.TemplateField) (i : Z)
    (fm : fieldMap) :
  fst (resolveFields fs i fm) = i + Z.of_nat (length fs).
Proof.
  revert i fm. induction fs as [|f fs IH]; intros i fm.
  - cbn. lia.
  - change (resolveFields (f :: fs) i fm)
      with (resolveFields fs (i + 1) (resolveField (i + 1) f fm)).
    rewrite IH. cbn [length]. lia.
Qed.

(** One more field at the end of the template: one more switch, at the
    index of that field. *)
Lemma generateFieldMap_snoc (tid dom : Z) (fs : list ipfix.TemplateField)
    (f : ipfix.TemplateField) :
  generateFieldMap (ipfix.mkTemplateRecords tid dom (fs ++ [f]))
  = resolveField (Z.of_nat (length fs)) f
      (generateFieldMap (ipfix.mkTemplateRecords tid dom fs)).
Proof.
  unfold generateFieldMap. cbn [ipfix.Records].
  rewrite resolveFields_app.
  pose proof (resolveFields_counter fs (-1) zero_fieldMap) as Hc.
  destruct (resolveFields fs (-1) zero_fieldMap) as [i fm].
  cbn in *. subst i. f_equal. lia.
Qed.

Lemma generateFieldMap_nil (tid dom : Z) :
  generateFieldMap (ipfix.mkTemplateRecords tid dom []) = zero_fieldMap.
Proof. reflexivity. Qed.

(** The switch writes the index into the slot of the field type, and
    into no other slot. *)
Lemma slot_value_resolveField_hit (s : Spec.Slot) (i : Z)
    (f : ipfix.TemplateField) (fm : fieldMap) :
  Spec.slot_of (ipfix.Type_ f) = Some s ->
  Spec.slot_value s (resolveField i f fm) = i.
Proof.
  unfold resolveField.
  destruct (ipfix.Type_ f); cbn; intros H; inversion H; reflexivity.
Qed.

Lemma slot_value_resolveField_miss (s : Spec.Slot) (i : Z)
    (f : ipfix.TemplateField) (fm : fieldMap) :
  Spec.slot_of (ipfix.Type_ f) <> Some s ->
  Spec.slot_value s (resolveField i f fm) = Spec.slot_value s fm.
Proof.
  unfold resolveField.
  destruct (ipfix.Type_ f), s; cbn; intros H;
    solve [reflexivity | exfalso; apply H; reflexivity].
Qed.

Lemma family_resolveField_other (i : Z) (f : ipfix.TemplateField)
    (fm : fieldMap) :
  ipfix.Type_ f <> ipfix.IPv4SrcAddr ->
  ipfix.Type_ f <> ipfix.IPv6SrcAddr ->
  family (resolveField i f fm) = family fm.
Proof.
  unfold resolveField.
  destruct (ipfix.Type_ f); cbn; intros H4 H6;
    solve [reflexivity | exfalso; auto].
Qed.

Lemma last_occurrence_snoc_hit (P : ipfix.FieldType -> Prop)
    (fs : list ipfix.TemplateField) (f : ipfix.TemplateField) (i : nat) :
  P (ipfix.Type_ f) ->
  Spec.last_occurrence P (fs ++ [f]) i -> i = length fs.
Proof.
  intros HP [(g & Hg & _) Hlast].
  apply lookup_lt_Some in Hg. rewrite length_app in Hg. cbn in Hg.
  destruct (decide (i = length fs)) as [|Hne]; [assumption|].
  exfalso. apply (Hlast (length fs) f); [lia| |assumption].
  rewrite lookup_app_r by lia. now rewrite Nat.sub_diag.
Qed.

Lemma last_occurrence_snoc_miss (P : ipfix.FieldType -> Prop)
    (fs : list ipfix.TemplateField) (f : ipfix.TemplateField) (i : nat) :
  ~ P (ipfix.Type_ f) ->
  Spec.last_occurrence P (fs ++ [f]) i -> Spec.last_occurrence P fs i.
Proof.
  intros HP [(g & Hg & HPg) Hlast].
  assert (i < length fs)%nat as Hi.
  { pose proof (lookup_lt_Some _ _ _ Hg) as Hlt.
    rewrite length_app in Hlt. cbn in Hlt.
    destruct (decide (i = length fs)) as [->|]; [|lia].
    rewrite lookup_app_r, Nat.sub_diag in Hg by lia.
    cbn in Hg. injection Hg as <-. contradiction. }
  split.
  - exists g. split; [|assumption]. now rewrite lookup_app_l in Hg.
  - intros j g' Hj Hg'. apply (Hlast j g' Hj).
    rewrite lookup_app_l; [assumption|]. now apply lookup_lt_Some in Hg'.
Qed.

(** No field of the template is recorded in the slot: it holds zero. *)
Lemma slot_value_unset (tid dom : Z) (fs : list ipfix.TemplateField)
    (s : Spec.Slot) :
  (forall f, f ∈ fs -> Spec.slot_of (ipfix.Type_ f) <> Some s) ->
  Spec.slot_value s (generateFieldMap (ipfix.mkTemplateRecords tid dom fs)) = 0.
Proof.
  induction fs as [|f fs IH] using rev_ind; intros Hno.
  - now destruct s.
  - rewrite generateFieldMap_snoc, slot_value_resolveField_miss.
    + apply IH. intros g Hg. apply Hno. apply elem_of_app. now left.
    + apply Hno. apply elem_of_app. right. constructor.
Qed.

Lemma slot_value_last (tid dom : Z) (fs : list ipfix.TemplateField)
    (s : Spec.Slot) (i : nat) :
  Spec.last_occurrence (fun ty => Spec.slot_of ty = Some s) fs i ->
  Spec.slot_value s (generateFieldMap (ipfix.mkTemplateRecords tid dom fs))
  = Z.of_nat i.
Proof.
  revert i. induction fs as [|f fs IH] using rev_ind; intros i Hlast.
  - destruct Hlast as [(g & Hg & _) _]. discriminate.
  - rewrite generateFieldMap_snoc.
    destruct (decide (Spec.slot_of (ipfix.Type_ f) = Some s)) as [Hs|Hs].
    + rewrite slot_value_resolveField_hit by assumption.
      f_equal. symmetry.
      now apply (last_occurrence_snoc_hit
                   (fun ty => Spec.slot_of ty = Some s) fs f i Hs).
    + rewrite slot_value_resolveField_miss by assumption.
      apply IH.
      now apply (last_occurrence_snoc_miss
                   (fun ty => Spec.slot_of ty = Some s) fs f i Hs).
Qed.

Example generateFieldMap_scenario :
  generateFieldMap Samples.scenario_template
  = mkFieldMap 0 1 4 3 2 0 0 0 4 0 0 0 0 0 0.
Proof. reflexivity. Qed.

Example generateFieldMap_mixed :
  srcAddr (generateFieldMap Samples.mixed_template) = 2
  /\ family (generateFieldMap Samples.mixed_template) = 6.
Proof. split; reflexivity. Qed.

(** C3, as stated, fails for the field types that share a slot.  In the
    template (IPv4 source address, IPv4 source address, IPv6 source
    address) the type IPv4 source address occurs twice, last at index 1,
    and the source-address slot holds 2, the index of the IPv6 field. *)
Lemma last_occurrence_of_type_does_not_win :
  ~ Spec.last_occurrence_wins Samples.mixed_template ipfix.IPv4SrcAddr.
Proof.
  intros H.
  specialize (H Spec.SrcAddress 1%nat eq_refl).
  assert (Spec.slot_value Spec.SrcAddress
            (generateFieldMap Samples.mixed_template) = 1) as Hv.
  { apply H.
    - exists 0%nat, 1%nat. do 2 eexists.
      split; [discriminate|]. repeat split; reflexivity.
    - split.
      + eexists. split; reflexivity.
      + intros j f Hj Hf.
        destruct j as [|[|[|j]]]; try lia.
        * cbn in Hf. injection Hf as <-. discriminate.
        * apply lookup_lt_Some in Hf. cbn in Hf. lia. }
  discriminate Hv.
Qed.

(** C3, amended: the resolver walks the field list once in order, and
    the slot of a semantic field holds the index of the last field whose
    type is recorded in that slot (the IPv4 and the IPv6 variant of the
    source address, of the destination address and of the next hop share
    one slot; every other recognized type has a slot of its own). *)
Theorem last_field_of_slot_wins (template : ipfix.TemplateRecords)
    (s : Spec.Slot) (i : nat) :
  Spec.last_occurrence (fun ty => Spec.slot_of ty = Some s)
                       (ipfix.Records template) i ->
  Spec.slot_value s (generateFieldMap template) = Z.of_nat i.
Proof.
  destruct template as [tid dom fs]. cbn [ipfix.Records].
  apply slot_value_last.
Qed.

Lemma last_field_of_slot_wins_witness :
  Spec.slot_value Spec.PacketCount (generateFieldMap Samples.twice_template)
  = Z.of_nat 2.
Proof.
  apply (last_field_of_slot_wins Samples.twice_template Spec.PacketCount 2).
  split.
  - eexists. split; reflexivity.
  - intros j f Hj Hf. apply lookup_lt_Some in Hf. cbn in Hf. lia.
Defined.

(** A type with a slot of its own: the last occurrence of the type wins,
    as the spec has it. *)
Corollary last_occurrence_wins_unshared (template : ipfix.TemplateRecords)
    (ty : ipfix.FieldType) (s : Spec.Slot) (i : nat) :
  Spec.slot_of ty = Some s ->
  (forall ty', Spec.slot_of ty' = Some s -> ty' = ty) ->
  Spec.last_occurrence (eq ty) (ipfix.Records template) i ->
  Spec.slot_value s (generateFieldMap template) = Z.of_nat i.
Proof.
  intros Hs Honly [(f & Hf & Hty) Hlast].
  destruct template as [tid dom fs]. cbn [ipfix.Records] in *.
  apply slot_value_last. split.
  - exists f. split; [assumption|]. now rewrite <- Hty.
  - intros j g Hj Hg Hsg. apply (Hlast j g Hj Hg).
    symmetry. now apply Honly.
Qed.

(** The family after the whole template: that of the last source-address
    field, zero with none. *)
Lemma family_no_source_address (tid dom : Z) (fs : list ipfix.TemplateField) :
  (forall f, f ∈ fs ->
     ipfix.Type_ f <> ipfix.IPv4SrcAddr /\ ipfix.Type_ f <> ipfix.IPv6SrcAddr) ->
  family (generateFieldMap (ipfix.mkTemplateRecords tid dom fs)) = 0.
Proof.
  induction fs as [|f fs IH] using rev_ind; intros Hno.
  - reflexivity.
  - rewrite generateFieldMap_snoc.
    assert (f ∈ fs ++ [f]) as Hf by (apply elem_of_app; right; constructor).
    destruct (Hno f Hf) as [H4 H6].
    rewrite family_resolveField_other by assumption.
    apply IH. intros g Hg. apply Hno. apply elem_of_app. now left.
Qed.

Lemma family_values (tid dom : Z) (fs : list ipfix.TemplateField) :
  family (generateFieldMap (ipfix.mkTemplateRecords tid dom fs)) = 0
  \/ family (generateFieldMap (ipfix.mkTemplateRecords tid dom fs)) = 4
  \/ family (generateFieldMap (ipfix.mkTemplateRecords tid dom fs)) = 6.
Proof.
  induction fs as [|f fs IH] using rev_ind.
  - now left.
  - rewrite generateFieldMap_snoc. unfold resolveField.
    destruct (ipfix.Type_ f); cbn; auto.
Qed.

(** C4: the address family is set from a source-address field only (an
    IPv4 source address sets 4, an IPv6 source address sets 6, no other
    field type changes it, and it is zero before the first field), and a
    field of an unrecognized type leaves the whole layout unchanged. *)
Theorem family_from_source_address_only (tid dom : Z)
    (fs : list ipfix.TemplateField) (f : ipfix.TemplateField) :
  family (generateFieldMap (ipfix.mkTemplateRecords tid dom [])) = 0
  /\ (ipfix.Type_ f = ipfix.IPv4SrcAddr ->
      family (generateFieldMap (ipfix.mkTemplateRecords tid dom (fs ++ [f])))
      = 4)
  /\ (ipfix.Type_ f = ipfix.IPv6SrcAddr ->
      family (generateFieldMap (ipfix.mkTemplateRecords tid dom (fs ++ [f])))
      = 6)
  /\ (ipfix.Type_ f <> ipfix.IPv4SrcAddr ->
      ipfix.Type_ f <> ipfix.IPv6SrcAddr ->
      family (generateFieldMap (ipfix.mkTemplateRecords tid dom (fs ++ [f])))
      = family (generateFieldMap (ipfix.mkTemplateRecords tid dom fs)))
  /\ (forall c, ipfix.Type_ f = ipfix.Unrecognized c ->
      generateFieldMap (ipfix.mkTemplateRecords tid dom (fs ++ [f]))
      = generateFieldMap (ipfix.mkTemplateRecords tid dom fs)).
Proof.
  rewrite generateFieldMap_snoc.
  split; [reflexivity|].
  split; [|split; [|split]].
  - intros H. unfold resolveField. now rewrite H.
  - intros H. unfold resolveField. now rewrite H.
  - apply family_resolveField_other.
  - intros c H. unfold resolveField. now rewrite H.
Qed.

Lemma family_from_source_address_only_witness :
  family (generateFieldMap
            (ipfix.mkTemplateRecords 256 0
               ([Samples.field ipfix.IPv6SrcAddr 16]
                ++ [Samples.field ipfix.IPv4SrcAddr 4]))) = 4
  /\ family (generateFieldMap
               (ipfix.mkTemplateRecords 256 0
                  ([Samples.field ipfix.IPv4SrcAddr 4]
                   ++ [Samples.field ipfix.IPv6SrcAddr 16]))) = 6
  /\ family (generateFieldMap
               (ipfix.mkTemplateRecords 256 0
                  ([Samples.field ipfix.IPv4SrcAddr 4]
                   ++ [Samples.field ipfix.IPv6DstAddr 16])))
     = family (generateFieldMap
                 (ipfix.mkTemplateRecords 256 0
                    [Samples.field ipfix.IPv4SrcAddr 4]))
  /\ generateFieldMap
       (ipfix.mkTemplateRecords 260 0
          ([Samples.field ipfix.IPv6SrcAddr 16]
           ++ [Samples.field (ipfix.Unrecognized 32768) 4]))
     = generateFieldMap
         (ipfix.mkTemplateRecords 260 0 [Samples.field ipfix.IPv6SrcAddr 16]).
Proof.
  split; [|split; [|split]].
  - apply (family_from_source_address_only 256 0
             [Samples.field ipfix.IPv6SrcAddr 16]
             (Samples.field ipfix.IPv4SrcAddr 4)).
    reflexivity.
  - apply (family_from_source_address_only 256 0
             [Samples.field ipfix.IPv4SrcAddr 4]
             (Samples.field ipfix.IPv6SrcAddr 16)).
    reflexivity.
  - apply (family_from_source_address_only 256 0
             [Samples.field ipfix.IPv4SrcAddr 4]
             (Samples.field ipfix.IPv6DstAddr 16)); discriminate.
  - pose proof (family_from_source_address_only 260 0
                  [Samples.field ipfix.IPv6SrcAddr 16]
                  (Samples.field (ipfix.Unrecognized 32768) 4))
      as (_ & _ & _ & _ & H).
    exact (H 32768 eq_refl).
Defined.

End FieldMapFacts.

(** ** Flow construction *)
Module FlowFacts.

Import ifserver.

Lemma index_Ok {A : Type} (s : list A) (i : Z) :
  0 <= i < Z.of_nat (length s) -> exists a, Go.index s i = Go.Ok a.
Proof.
  intros Hi. unfold Go.index.
  destruct (Z.ltb_spec i 0) as [|_]; [lia|].
  destruct (lookup_lt_is_Some_2 s (Z.to_nat i) ltac:(lia)) as [a ->].
  now exists a.
Qed.

Lemma byte_val_range (b : byte) : 0 <= convert.byte_val b < 256.
Proof.
  unfold convert.byte_val. pose proof (Byte.to_N_bounded b). lia.
Qed.

(** Four bytes, most significant first. *)
Lemma Uint32_big_endian (b0 b1 b2 b3 : byte) :
  convert.Uint32 [b0; b1; b2; b3]
  = convert.byte_val b0 * 2 ^ 24 + convert.byte_val b1 * 2 ^ 16
    + convert.byte_val b2 * 2 ^ 8 + convert.byte_val b3.
Proof.
  unfold convert.Uint32. cbn [fold_left].
  pose proof (byte_val_range b0). pose proof (byte_val_range b1).
  pose proof (byte_val_range b2). pose proof (byte_val_range b3).
  rewrite GoFacts.uint32_small; lia.
Qed.

Ltac split_index :=
  match goal with
  | H : context [Go.index ?v ?i] |- _ =>
      let E := fresh "E" in
      destruct (Go.index v i) eqn:E; cbn [Go.bind] in H; [|discriminate H]
  end.

(** What a constructed flow holds, field by field. *)
Lemma newFlow_inv (bgp : bool) (fm : fieldMap) (r : ipfix.FlowDataRecord)
    (agent : net.IP) (ts : Z) (fl : netflow.Flow) :
  newFlow bgp fm r agent ts = Go.Ok fl ->
  netflow.Router fl = agent
  /\ netflow.Timestamp fl = ts
  /\ netflow.Family fl = Go.uint32 (family fm)
  /\ Go.rmap convert.Uint32 (Go.index (ipfix.Values r) (packets fm))
     = Go.Ok (netflow.Packets fl)
  /\ Go.rmap (fun v => Go.uint64 (convert.Uint32 v))
             (Go.index (ipfix.Values r) (size fm))
     = Go.Ok (netflow.Size fl)
  /\ Go.rmap convert.Uint32 (Go.index (ipfix.Values r) (protocol fm))
     = Go.Ok (netflow.Protocol fl)
  /\ Go.rmap convert.Uint32 (Go.index (ipfix.Values r) (intIn fm))
     = Go.Ok (netflow.IntIn fl)
  /\ Go.rmap convert.Uint32 (Go.index (ipfix.Values r) (intOut fm))
     = Go.Ok (netflow.IntOut fl)
  /\ Go.rmap convert.Uint32 (Go.index (ipfix.Values r) (srcPort fm))
     = Go.Ok (netflow.SrcPort fl)
  /\ Go.rmap convert.Uint32 (Go.index (ipfix.Values r) (dstPort fm))
     = Go.Ok (netflow.DstPort fl)
  /\ Go.rmap convert.Reverse (Go.index (ipfix.Values r) (srcAddr fm))
     = Go.Ok (netflow.SrcAddr fl)
  /\ Go.rmap convert.Reverse (Go.index (ipfix.Values r) (dstAddr fm))
     = Go.Ok (netflow.DstAddr fl)
  /\ Go.rmap convert.Reverse (Go.index (ipfix.Values r) (nextHop fm))
     = Go.Ok (netflow.NextHop fl)
  /\ (bgp = true -> netflow.SrcAs fl = 0 /\ netflow.DstAs fl = 0)
  /\ (bgp = false ->
      Go.rmap convert.Uint32 (Go.index (ipfix.Values r) (srcAsn fm))
      = Go.Ok (netflow.SrcAs fl)
      /\ Go.rmap convert.Uint32 (Go.index (ipfix.Values r) (dstAsn fm))
         = Go.Ok (netflow.DstAs fl)).
Proof.
  unfold newFlow. intros H.
  do 10 split_index.
  destruct bgp; cbn [negb Go.bind] in H.
  - injection H as <-. cbn.
    repeat (split; [reflexivity|]). split; [auto|discriminate].
  - do 2 split_index. injection H as <-. cbn.
    repeat (split; [reflexivity|]). split; [discriminate|auto].
Qed.

(** Every slot holds an index of the template (zero in the empty one). *)
Lemma slot_value_range (tid dom : Z) (fs : list ipfix.TemplateField)
    (s : Spec.Slot) :
  0 <= Spec.slot_value s
         (generateFieldMap (ipfix.mkTemplateRecords tid dom fs))
    < Z.max 1 (Z.of_nat (length fs)).
Proof.
  induction fs as [|f fs IH] using rev_ind.
  - destruct s; cbn; lia.
  - rewrite FieldMapFacts.generateFieldMap_snoc, length_app. cbn [length].
    destruct (decide (Spec.slot_of (ipfix.Type_ f) = Some s)) as [Hs|Hs].
    + rewrite FieldMapFacts.slot_value_resolveField_hit by assumption. lia.
    + rewrite FieldMapFacts.slot_value_resolveField_miss by assumption. lia.
Qed.

Lemma index_slot (template : ipfix.TemplateRecords)
    (r : ipfix.FlowDataRecord) (s : Spec.Slot) :
  Spec.decoded_against template r ->
  ipfix.Records template <> [] ->
  exists a,
    Go.index (ipfix.Values r) (Spec.slot_value s (generateFieldMap template))
    = Go.Ok a.
Proof.
  unfold Spec.decoded_against. destruct template as [tid dom fs].
  cbn [ipfix.Records]. intros Hlen Hne.
  apply index_Ok. rewrite Hlen.
  pose proof (slot_value_range tid dom fs s).
  destruct fs; [contradiction|]. cbn [length] in *. lia.
Qed.

Ltac read_slot Hix s :=
  let a := fresh "a" in
  let E := fresh "E" in
  destruct (Hix s) as [a E]; cbn [Spec.slot_value] in E;
  rewrite ?E; clear E; cbn [Go.bind].

(** A record decoded against a non-empty template gives a flow: no index
    is out of range. *)
Lemma newFlow_total (bgp : bool) (template : ipfix.TemplateRecords)
    (r : ipfix.FlowDataRecord) (agent : net.IP) (ts : Z) :
  Spec.decoded_against template r ->
  ipfix.Records template <> [] ->
  exists fl, newFlow bgp (generateFieldMap template) r agent ts = Go.Ok fl.
Proof.
  intros Hdec Hne. unfold newFlow.
  pose proof (fun s => index_slot template r s Hdec Hne) as Hix.
  read_slot Hix Spec.PacketCount.
  read_slot Hix Spec.ByteCount.
  read_slot Hix Spec.ProtocolNumber.
  read_slot Hix Spec.IngressInterface.
  read_slot Hix Spec.EgressInterface.
  read_slot Hix Spec.SourcePort.
  read_slot Hix Spec.DestinationPort.
  read_slot Hix Spec.SrcAddress.
  read_slot Hix Spec.DstAddress.
  read_slot Hix Spec.NextHopAddress.
  read_slot Hix Spec.SourceAS.
  read_slot Hix Spec.DestinationAS.
  destruct bgp; cbn; eexists; reflexivity.
Qed.

Lemma family_nonzero_nonempty (template : ipfix.TemplateRecords) :
  family (generateFieldMap template) <> 0 -> ipfix.Records template <> [].
Proof.
  destruct template as [tid dom fs]. cbn [ipfix.Records].
  intros H ->. now apply H.
Qed.

(** The body of the loop: with a known family one flow is sent, the
    flow [newFlow] builds; with any other family nothing happens. *)
Lemma processRecord_known_family (fm : fieldMap) (agent : net.IP) (ts : Z)
    (ifs : IPFIXServer) (g : stats.Stats) (r : ipfix.FlowDataRecord)
    (st' : State) :
  family fm = 4 \/ family fm = 6 ->
  processRecord fm agent ts (ifs, g) r = Go.Ok st' ->
  exists fl,
    newFlow (bgpAugment ifs) fm r agent ts = Go.Ok fl
    /\ fst st' = send fl ifs.
Proof.
  unfold processRecord. intros [Hf|Hf]; rewrite Hf; cbn.
  - destruct (newFlow _ _ _ _ _) as [fl|]; cbn; [|discriminate].
    intros H. injection H as <-. now exists fl.
  - destruct (newFlow _ _ _ _ _) as [fl|]; cbn; [|discriminate].
    intros H. injection H as <-. now exists fl.
Qed.

Lemma processRecord_unknown_family (fm : fieldMap) (agent : net.IP) (ts : Z)
    (st : State) (r : ipfix.FlowDataRecord) :
  family fm <> 4 -> family fm <> 6 ->
  processRecord fm agent ts st r = Go.Ok st.
Proof.
  unfold processRecord. intros H4 H6. destruct st as [ifs g].
  destruct (Z.eqb_spec (family fm) 4); [contradiction|].
  destruct (Z.eqb_spec (family fm) 6); [contradiction|].
  reflexivity.
Qed.

(** Constructing flows never touches the template cache or the
    configuration of the server. *)
Lemma processRecord_frame (fm : fieldMap) (agent : net.IP) (ts : Z)
    (st st' : State) (r : ipfix.FlowDataRecord) :
  processRecord fm agent ts st r = Go.Ok st' ->
  tmplCache (fst st') = tmplCache (fst st)
  /\ bgpAugment (fst st') = bgpAugment (fst st)
  /\ debug (fst st') = debug (fst st).
Proof.
  unfold processRecord. destruct st as [ifs g].
  destruct (family fm =? 4); [|destruct (family fm =? 6)].
  - destruct (newFlow _ _ _ _ _); cbn; [|discriminate].
    intros H. injection H as <-. now cbn.
  - destruct (newFlow _ _ _ _ _); cbn; [|discriminate].
    intros H. injection H as <-. now cbn.
  - intros H. injection H as <-. now cbn.
Qed.

Lemma processRecords_frame (fm : fieldMap) (agent : net.IP) (ts : Z)
    (records : list ipfix.FlowDataRecord) (st st' : State) :
  processRecords fm agent ts records st = Go.Ok st' ->
  tmplCache (fst st') = tmplCache (fst st)
  /\ bgpAugment (fst st') = bgpAugment (fst st)
  /\ debug (fst st') = debug (fst st).
Proof.
  revert st. induction records as [|r records IH]; intros st; cbn.
  - intros H. injection H as <-. auto.
  - destruct (processRecord fm agent ts st r) as [st1|] eqn:E; cbn;
      [|discriminate].
    intros H. apply IH in H. apply processRecord_frame in E.
    destruct H as (-> & -> & ->). exact E.
Qed.

(** Records decoded against the template never make [processFlowSet]
    panic. *)
Lemma processFlowSet_total (template : ipfix.TemplateRecords)
    (records : list ipfix.FlowDataRecord) (agent : net.IP) (ts : Z)
    (st : State) :
  Forall (Spec.decoded_against template) records ->
  exists st', processFlowSet template records agent ts st = Go.Ok st'.
Proof.
  unfold processFlowSet. intros Hall. revert st.
  induction Hall as [|r records Hr _ IH]; intros st; cbn.
  - now exists st.
  - assert (exists st1,
              processRecord (generateFieldMap template) agent ts st r
              = Go.Ok st1) as [st1 ->]; [|cbn; apply IH].
    unfold processRecord. destruct st as [ifs g].
    destruct (Z.eqb_spec (family (generateFieldMap template)) 4) as [E4|_];
      [|destruct (Z.eqb_spec (family (generateFieldMap template)) 6)
          as [E6|_]].
    + destruct (newFlow_total (bgpAugment ifs) template r agent ts Hr)
        as [fl ->]; [|cbn; eauto].
      apply family_nonzero_nonempty. lia.
    + destruct (newFlow_total (bgpAugment ifs) template r agent ts Hr)
        as [fl ->]; [|cbn; eauto].
      apply family_nonzero_nonempty. lia.
    + eauto.
Qed.

Example newFlow_scenario :
  newFlow false (generateFieldMap Samples.scenario_template)
          Samples.scenario_record Samples.exporter4 1500000000
  = Go.Ok (netflow.mkFlow Samples.exporter4 1500000000 4 1 1500 6
             16777226 16777226 16777226 16777226
             [x0a; x00; x00; x01] [x0a; x00; x00; x02] [x0a; x00; x00; x01]
             16777226 16777226).
Proof. reflexivity. Qed.

Example newFlow_no_counts :
  newFlow false (generateFieldMap Samples.no_counts_template)
          Samples.no_counts_record Samples.exporter4 1500000000
  = Go.Ok (netflow.mkFlow Samples.exporter4 1500000000 4 16777226 16777226 6
             16777226 16777226 16777226 16777226
             [x0a; x00; x00; x01] [x0a; x00; x00; x02] [x0a; x00; x00; x01]
             16777226 16777226).
Proof. reflexivity. Qed.

Lemma no_counts_template_absent (ty : ipfix.FieldType) :
  ty <> ipfix.IPv4SrcAddr -> ty <> ipfix.IPv4DstAddr -> ty <> ipfix.Protocol ->
  Spec.absent ty Samples.no_counts_template.
Proof.
  intros H1 H2 H3 f Hf. cbn in Hf.
  rewrite !elem_of_cons, elem_of_nil in Hf.
  destruct Hf as [->|[->|[->|[]]]]; cbn; congruence.
Qed.

(** C2, as stated, fails: a slot that no field sets holds index 0, so
    the count is read from the first value of the record.  With the
    template (IPv4 source address, IPv4 destination address, protocol)
    the packet count of the flow is the source address read as a number,
    16777226, not zero. *)
Lemma absent_count_is_not_zero :
  ~ Spec.absent_count_is_zero false Samples.no_counts_template
      Samples.no_counts_record Samples.exporter4 1500000000.
Proof.
  intros H.
  destruct (H _ newFlow_no_counts) as [Hpackets _].
  specialize (Hpackets
                (no_counts_template_absent ipfix.InPkts
                   ltac:(discriminate) ltac:(discriminate)
                   ltac:(discriminate))).
  discriminate Hpackets.
Qed.

Lemma absent_slot_is_zero (template : ipfix.TemplateRecords)
    (ty : ipfix.FieldType) (s : Spec.Slot) :
  (forall ty', Spec.slot_of ty' = Some s -> ty' = ty) ->
  Spec.absent ty template ->
  Spec.slot_value s (generateFieldMap template) = 0.
Proof.
  destruct template as [tid dom fs]. unfold Spec.absent.
  cbn [ipfix.Records]. intros Honly Habs.
  apply FieldMapFacts.slot_value_unset.
  intros f Hf Hs. apply (Habs f Hf). now apply Honly.
Qed.

(** C2, amended: with the packet-count (byte-count) field type absent
    from the template, the packet count (byte count) of the constructed
    flow is the value at index 0 of the record, decoded as the count
    would be. *)
Theorem absent_count_reads_first_value (bgp : bool)
    (template : ipfix.TemplateRecords) (r : ipfix.FlowDataRecord)
    (agent : net.IP) (ts : Z) (fl : netflow.Flow) :
  newFlow bgp (generateFieldMap template) r agent ts = Go.Ok fl ->
  (Spec.absent ipfix.InPkts template ->
   Go.rmap convert.Uint32 (Go.index (ipfix.Values r) 0)
   = Go.Ok (netflow.Packets fl))
  /\ (Spec.absent ipfix.InBytes template ->
      Go.rmap (fun v => Go.uint64 (convert.Uint32 v))
              (Go.index (ipfix.Values r) 0)
      = Go.Ok (netflow.Size fl)).
Proof.
  intros H. apply newFlow_inv in H.
  destruct H as (_ & _ & _ & Hpackets & Hsize & _).
  split; intros Habs.
  - rewrite <- Hpackets. do 2 f_equal. symmetry.
    apply (absent_slot_is_zero template ipfix.InPkts Spec.PacketCount);
      [|assumption].
    intros ty. destruct ty; cbn; congruence.
  - rewrite <- Hsize. do 2 f_equal. symmetry.
    apply (absent_slot_is_zero template ipfix.InBytes Spec.ByteCount);
      [|assumption].
    intros ty. destruct ty; cbn; congruence.
Qed.

Lemma absent_count_reads_first_value_witness :
  Go.rmap convert.Uint32
          (Go.index (ipfix.Values Samples.no_counts_record) 0)
  = Go.Ok 16777226
  /\ Go.rmap (fun v => Go.uint64 (convert.Uint32 v))
             (Go.index (ipfix.Values Samples.no_counts_record) 0)
     = Go.Ok 16777226.
Proof.
  pose proof (absent_count_reads_first_value false
                Samples.no_counts_template Samples.no_counts_record
                Samples.exporter4 1500000000 _ newFlow_no_counts)
    as [Hpackets Hsize].
  split.
  - apply Hpackets. apply no_counts_template_absent; discriminate.
  - apply Hsize. apply no_counts_template_absent; discriminate.
Defined.

(** C5: in a constructed flow the source address, the destination
    address and the next hop are the reversed values of the record, and
    the scalar fields (packets, size, protocol, interfaces, ports, and
    the AS numbers when they are read) are the values decoded by
    [convert.Uint32], unsigned and most significant byte first, with no
    reversal. *)
Theorem reversal_on_addresses_only (bgp : bool) (fm : fieldMap)
    (r : ipfix.FlowDataRecord) (agent : net.IP) (ts : Z)
    (fl : netflow.Flow) :
  newFlow bgp fm r agent ts = Go.Ok fl ->
  (Go.rmap convert.Reverse (Go.index (ipfix.Values r) (srcAddr fm))
   = Go.Ok (netflow.SrcAddr fl)
   /\ Go.rmap convert.Reverse (Go.index (ipfix.Values r) (dstAddr fm))
      = Go.Ok (netflow.DstAddr fl)
   /\ Go.rmap convert.Reverse (Go.index (ipfix.Values r) (nextHop fm))
      = Go.Ok (netflow.NextHop fl))
  /\ (Go.rmap convert.Uint32 (Go.index (ipfix.Values r) (packets fm))
      = Go.Ok (netflow.Packets fl)
      /\ Go.rmap (fun v => Go.uint64 (convert.Uint32 v))
                 (Go.index (ipfix.Values r) (size fm))
         = Go.Ok (netflow.Size fl)
      /\ Go.rmap convert.Uint32 (Go.index (ipfix.Values r) (protocol fm))
         = Go.Ok (netflow.Protocol fl)
      /\ Go.rmap convert.Uint32 (Go.index (ipfix.Values r) (intIn fm))
         = Go.Ok (netflow.IntIn fl)
      /\ Go.rmap convert.Uint32 (Go.index (ipfix.Values r) (intOut fm))
         = Go.Ok (netflow.IntOut fl)
      /\ Go.rmap convert.Uint32 (Go.index (ipfix.Values r) (srcPort fm))
         = Go.Ok (netflow.SrcPort fl)
      /\ Go.rmap convert.Uint32 (Go.index (ipfix.Values r) (dstPort fm))
         = Go.Ok (netflow.DstPort fl)
      /\ (bgp = false ->
          Go.rmap convert.Uint32 (Go.index (ipfix.Values r) (srcAsn fm))
          = Go.Ok (netflow.SrcAs fl)
          /\ Go.rmap convert.Uint32 (Go.index (ipfix.Values r) (dstAsn fm))
             = Go.Ok (netflow.DstAs fl)))
  /\ (forall data, convert.Reverse data = rev data)
  /\ (forall b0 b1 b2 b3,
        convert.Uint32 [b0; b1; b2; b3]
        = convert.byte_val b0 * 2 ^ 24 + convert.byte_val b1 * 2 ^ 16
          + convert.byte_val b2 * 2 ^ 8 + convert.byte_val b3).
Proof.
  intros H. apply newFlow_inv in H.
  destruct H as (_ & _ & _ & Hpk & Hsz & Hpr & Hin & Hout & Hsp & Hdp
                 & Hsa & Hda & Hnh & _ & Has).
  repeat split; try assumption; try (now apply Has).
  apply Uint32_big_endian.
Qed.

Lemma reversal_on_addresses_only_witness :
  (Go.rmap convert.Reverse (Go.Ok [x01; x00; x00; x0a])
   = Go.Ok [x0a; x00; x00; x01]
   /\ Go.rmap convert.Reverse (Go.Ok [x02; x00; x00; x0a])
      = Go.Ok [x0a; x00; x00; x02])
  /\ Go.rmap convert.Uint32 (Go.Ok [x00; x00; x00; x01]) = Go.Ok 1
  /\ Go.rmap (fun v => Go.uint64 (convert.Uint32 v))
             (Go.Ok [x00; x00; x05; xdc]) = Go.Ok 1500.
Proof.
  pose proof (reversal_on_addresses_only false
                (generateFieldMap Samples.scenario_template)
                Samples.scenario_record Samples.exporter4 1500000000 _
                newFlow_scenario)
    as ((Hsrc & Hdst & _) & (Hpackets & Hsize & _) & _).
  repeat split; assumption.
Defined.

(** C8: the flow sent for a record has both AS fields zero when BGP
    augmentation is enabled, and holds the values of the record at the
    resolved AS indices when it is disabled. *)
Theorem AS_fields_follow_bgpAugment (fm : fieldMap) (agent : net.IP)
    (ts : Z) (ifs : IPFIXServer) (g : stats.Stats)
    (r : ipfix.FlowDataRecord) (st' : State) :
  family fm = 4 \/ family fm = 6 ->
  processRecord fm agent ts (ifs, g) r = Go.Ok st' ->
  exists fl,
    Output (fst st') = Output ifs ++ [fl]
    /\ (bgpAugment ifs = true ->
        netflow.SrcAs fl = 0 /\ netflow.DstAs fl = 0)
    /\ (bgpAugment ifs = false ->
        Go.rmap convert.Uint32 (Go.index (ipfix.Values r) (srcAsn fm))
        = Go.Ok (netflow.SrcAs fl)
        /\ Go.rmap convert.Uint32 (Go.index (ipfix.Values r) (dstAsn fm))
           = Go.Ok (netflow.DstAs fl)).
Proof.
  intros Hfam H.
  destruct (processRecord_known_family _ _ _ _ _ _ _ Hfam H)
    as (fl & Hfl & Hst).
  exists fl. split; [now rewrite Hst|].
  apply newFlow_inv in Hfl.
  destruct Hfl as (_ & _ & _ & _ & _ & _ & _ & _ & _ & _ & _ & _ & _
                   & Hon & Hoff).
  split; assumption.
Qed.

Lemma AS_fields_follow_bgpAugment_witness :
  (exists st' fl,
     processRecord (generateFieldMap Samples.as_template) Samples.exporter4
       1500000000 (Samples.fresh_server true, stats.zero) Samples.as_record
     = Go.Ok st'
     /\ Output (fst st') = [fl]
     /\ netflow.SrcAs fl = 0 /\ netflow.DstAs fl = 0)
  /\ (exists st' fl,
        processRecord (generateFieldMap Samples.as_template)
          Samples.exporter4 1500000000
          (Samples.fresh_server false, stats.zero) Samples.as_record
        = Go.Ok st'
        /\ Output (fst st') = [fl]
        /\ Go.Ok 64500 = Go.Ok (netflow.SrcAs fl)
        /\ Go.Ok 64501 = Go.Ok (netflow.DstAs fl)).
Proof.
  split.
  - eexists.
    destruct (AS_fields_follow_bgpAugment
                (generateFieldMap Samples.as_template) Samples.exporter4
                1500000000 (Samples.fresh_server true) stats.zero
                Samples.as_record _ (or_introl eq_refl) eq_refl)
      as (fl & Hout & Hon & _).
    exists fl. split; [reflexivity|]. split; [exact Hout|].
    apply Hon. reflexivity.
  - eexists.
    destruct (AS_fields_follow_bgpAugment
                (generateFieldMap Samples.as_template) Samples.exporter4
                1500000000 (Samples.fresh_server false) stats.zero
                Samples.as_record _ (or_introl eq_refl) eq_refl)
      as (fl & Hout & _ & Hoff).
    exists fl. split; [reflexivity|]. split; [exact Hout|].
    apply Hoff. reflexivity.
Defined.

End FlowFacts.

(** ** The ingestion worker *)
Module ServerFacts.

Import ifserver.

(** An identity no [set] was made for is absent from the cache. *)
Lemma fold_set_lookup_None
    (history : list (Z * Z * Z * ipfix.TemplateRecords))
    (c : templateCache) (id : Z * Z * Z) :
  c !! id = None ->
  Spec.never_registered history id ->
  fold_left (fun c '(a, d, t, tr) => tmplCache_set c a d t tr) history c !! id
  = None.
Proof.
  revert c. induction history as [|[[[a d] t] tr] history IH];
    intros c Hc Hnever; cbn.
  - assumption.
  - apply IH.
    + unfold tmplCache_set. rewrite lookup_insert_ne; [assumption|].
      apply (Hnever (a, d, t, tr)). constructor.
    + intros e He. apply Hnever. now constructor.
Qed.

Lemma never_registered_get (history : list (Z * Z * Z * ipfix.TemplateRecords))
    (addr domainID templateID : Z) :
  Spec.never_registered history (addr, domainID, templateID) ->
  tmplCache_get (Spec.cache_after history) addr domainID templateID = None.
Proof.
  intros Hnever. unfold tmplCache_get, Spec.cache_after.
  apply fold_set_lookup_None; [|assumption].
  apply lookup_empty.
Qed.

(** [set] then [get]: the definition just stored. *)
Lemma get_set_same (c : templateCache) (addr domainID templateID : Z)
    (tr : ipfix.TemplateRecords) :
  tmplCache_get (tmplCache_set c addr domainID templateID tr)
                addr domainID templateID = Some tr.
Proof. unfold tmplCache_get, tmplCache_set. apply lookup_insert_eq. Qed.

Section Codec.

Variable Decode : list byte -> net.IP -> option ipfix.Packet.
Variable DecodeFlowSet :
  ipfix.TemplateRecords -> ipfix.Set_ -> option (list ipfix.FlowDataRecord).

(** Processing data-record sets only reads the template cache. *)
Lemma processFlowSets_frame (remote : net.IP) (domainID : Z)
    (flowSets : list ipfix.Set_) (ts : Z) (st st' : State) :
  processFlowSets DecodeFlowSet remote domainID flowSets ts st = Go.Ok st' ->
  tmplCache (fst st') = tmplCache (fst st).
Proof.
  revert st. induction flowSets as [|set flowSets IH]; intros st; cbn.
  - intros H. now injection H as <-.
  - destruct (tmplCache_get _ _ _ _) as [template|]; [|apply IH].
    destruct (DecodeFlowSet template set) as [records|]; [|apply IH].
    destruct (processFlowSet template records remote ts st) as [st1|] eqn:E;
      cbn; [|discriminate].
    intros H. apply IH in H. rewrite H.
    now apply FlowFacts.processRecords_frame in E.
Qed.

(** A set whose template is absent contributes nothing, wherever it
    stands among the sets of the packet. *)
Lemma processFlowSets_skip (remote : net.IP) (domainID : Z)
    (set : ipfix.Set_) (pre post : list ipfix.Set_) (ts : Z) (st : State) :
  tmplCache_get (tmplCache (fst st)) (convert.Uint32 remote) domainID
                (ipfix.SetID set) = None ->
  processFlowSets DecodeFlowSet remote domainID (pre ++ set :: post) ts st
  = processFlowSets DecodeFlowSet remote domainID (pre ++ post) ts st.
Proof.
  revert st. induction pre as [|s pre IH]; intros st Hget.
  - cbn. now rewrite Hget.
  - cbn. destruct (tmplCache_get _ _ _ (ipfix.SetID s)) as [template|];
      [|now apply IH].
    destruct (DecodeFlowSet template s) as [records|]; [|now apply IH].
    destruct (processFlowSet template records remote ts st) as [st1|] eqn:E;
      cbn; [|reflexivity].
    apply IH. apply FlowFacts.processRecords_frame in E.
    destruct E as (-> & _). assumption.
Qed.

(** C6: a data-record set whose Template Identity was never registered
    in the cache is skipped.  Processed alone it leaves the whole state
    as it was (no flow sent, cache and counters unchanged, no panic), and
    among other sets the worker goes on as if the set were not there. *)
Theorem unknown_template_set_is_skipped
    (history : list (Z * Z * Z * ipfix.TemplateRecords))
    (remote : net.IP) (domainID : Z) (set : ipfix.Set_)
    (pre post : list ipfix.Set_) (ts : Z) (st : State) :
  tmplCache (fst st) = Spec.cache_after history ->
  Spec.never_registered history
    (convert.Uint32 remote, domainID, ipfix.SetID set) ->
  processFlowSets DecodeFlowSet remote domainID [set] ts st = Go.Ok st
  /\ processFlowSets DecodeFlowSet remote domainID (pre ++ set :: post) ts st
     = processFlowSets DecodeFlowSet remote domainID (pre ++ post) ts st.
Proof.
  intros Hcache Hnever.
  assert (tmplCache_get (tmplCache (fst st)) (convert.Uint32 remote)
            domainID (ipfix.SetID set) = None) as Hget.
  { rewrite Hcache. now apply never_registered_get. }
  split.
  - cbn. now rewrite Hget.
  - now apply processFlowSets_skip.
Qed.

(** C7, amended: a datagram whose sender address is not an IPv4 address
    is dropped.  Whatever the codec, the server (template cache, flows
    sent) is unchanged, and of the counters only the two that count
    every datagram read, [IPFIXpackets] and [IPFIXbytes], change. *)
Theorem non_IPv4_datagram_is_dropped (remote : net.IP) (data : list byte)
    (ifs : IPFIXServer) (g : stats.Stats) :
  net.To4 remote = None ->
  packetWorker_iter Decode DecodeFlowSet (Datagram remote data) (ifs, g)
  = Go.Ok (ifs,
           stats.add_IPFIXbytes (Go.uint64 (Z.of_nat (length data)))
             (stats.add_IPFIXpackets 1 g)).
Proof. intros H. cbn. now rewrite H. Qed.

(** An IPv4 datagram the codec cannot decode changes the same two
    counters, the same way. *)
Lemma undecodable_datagram_is_dropped (remote remote4 : net.IP)
    (data : list byte) (ifs : IPFIXServer) (g : stats.Stats) :
  net.To4 remote = Some remote4 ->
  Decode data remote4 = None ->
  packetWorker_iter Decode DecodeFlowSet (Datagram remote data) (ifs, g)
  = Go.Ok (ifs,
           stats.add_IPFIXbytes (Go.uint64 (Z.of_nat (length data)))
             (stats.add_IPFIXpackets 1 g)).
Proof. intros H4 HD. cbn. rewrite H4. unfold processPacket. now rewrite HD. Qed.

End Codec.

Example To4_mapped : net.To4 Samples.exporter4_mapped = Some Samples.exporter4.
Proof. reflexivity. Qed.

Example To4_IPv6 : net.To4 Samples.exporter6 = None.
Proof. reflexivity. Qed.

Lemma unknown_template_set_is_skipped_witness :
  processFlowSets Samples.no_DecodeFlowSet Samples.exporter4 0
    [ipfix.mkSet 256 [x00]] 1500000000
    (Samples.fresh_server false, stats.zero)
  = Go.Ok (Samples.fresh_server false, stats.zero)
  /\ processFlowSets Samples.no_DecodeFlowSet Samples.exporter4 0
       ([ipfix.mkSet 261 []] ++ ipfix.mkSet 256 [x00] :: [ipfix.mkSet 300 []])
       1500000000 (Samples.fresh_server false, stats.zero)
     = processFlowSets Samples.no_DecodeFlowSet Samples.exporter4 0
         ([ipfix.mkSet 261 []] ++ [ipfix.mkSet 300 []])
         1500000000 (Samples.fresh_server false, stats.zero).
Proof.
  apply (unknown_template_set_is_skipped Samples.no_DecodeFlowSet []
           Samples.exporter4 0 (ipfix.mkSet 256 [x00])
           [ipfix.mkSet 261 []] [ipfix.mkSet 300 []] 1500000000
           (Samples.fresh_server false, stats.zero)).
  - reflexivity.
  - intros e He. inversion He.
Defined.

Lemma non_IPv4_datagram_is_dropped_witness :
  packetWorker_iter Samples.no_Decode Samples.no_DecodeFlowSet
    (Datagram Samples.exporter6 [x00])
    (Samples.fresh_server false, stats.zero)
  = Go.Ok (Samples.fresh_server false, stats.mkStats 1 1 0 0 0 0).
Proof.
  apply (non_IPv4_datagram_is_dropped Samples.no_Decode
           Samples.no_DecodeFlowSet Samples.exporter6 [x00]
           (Samples.fresh_server false) stats.zero).
  reflexivity.
Defined.

(** C7, as stated, fails: no counter records the rejection.  After the
    datagram of an IPv6 sender the counters are what they are after the
    same datagram of an IPv4 sender that the codec cannot decode: one
    more packet and its bytes received, nothing else. *)
Lemma rejection_is_not_recorded :
  exists ifs g_rejected g_accepted,
    packetWorker_iter Samples.no_Decode Samples.no_DecodeFlowSet
      (Datagram Samples.exporter6 [x00])
      (Samples.fresh_server false, stats.zero)
    = Go.Ok (ifs, g_rejected)
    /\ packetWorker_iter Samples.no_Decode Samples.no_DecodeFlowSet
         (Datagram Samples.exporter4_mapped [x00])
         (Samples.fresh_server false, stats.zero)
       = Go.Ok (ifs, g_accepted)
    /\ g_rejected = stats.mkStats 1 1 0 0 0 0
    /\ ~ Spec.rejection_recorded g_rejected g_accepted.
Proof.
  exists (Samples.fresh_server false), (stats.mkStats 1 1 0 0 0 0),
    (stats.mkStats 1 1 0 0 0 0).
  repeat split.
  intros [c Hc]. now apply Hc.
Qed.

End ServerFacts.

(** ** More on the annotation stage: the alignment, and a worker over a
    stream of flows *)
Module AlignFacts.

(** X1: The aligned timestamp is a multiple of the interval, less than one
    interval away from the timestamp, on the side of zero. *)
Theorem align_multiple_towards_zero (t p : Z) :
  Go.is_int64 t -> p <> 0 ->
  exists a,
    annotator.align t p = Go.Ok a
    /\ Z.rem a p = 0
    /\ Z.abs (t - a) < Z.abs p
    /\ (0 <= t -> 0 <= a <= t)
    /\ (t <= 0 -> t <= a <= 0).
Proof.
  intros Ht Hp. exists (t - Z.rem t p).
  split; [now apply AnnotatorFacts.align_nonzero|].
  split.
  { rewrite (AnnotatorFacts.aligned_multiple t p Hp).
    now apply Z.rem_mul. }
  pose proof (Z.rem_bound_abs t p Hp) as Hb.
  destruct (GoFacts.rem_between t p Hp) as [Hpos Hneg].
  split; [|split].
  - replace (t - (t - Z.rem t p)) with (Z.rem t p) by lia. exact Hb.
  - intros H0. specialize (Hpos H0). lia.
  - intros H0. specialize (Hneg H0). lia.
Qed.

Lemma align_multiple_towards_zero_witness :
  exists a,
    annotator.align (-1234567) 300 = Go.Ok a
    /\ Z.rem a 300 = 0
    /\ Z.abs (-1234567 - a) < Z.abs 300
    /\ (0 <= -1234567 -> 0 <= a <= -1234567)
    /\ (-1234567 <= 0 -> -1234567 <= a <= 0).
Proof.
  apply (align_multiple_towards_zero (-1234567) 300).
  - unfold Go.is_int64. lia.
  - lia.
Defined.

(** X2: A negative interval aligns like its absolute value: the sign of the
    interval does not matter (and a zero interval panics either way). *)
Theorem align_sign_of_interval (t p : Z) :
  annotator.align t (- p) = annotator.align t p.
Proof.
  unfold annotator.align, Go.rem64.
  destruct (Z.eqb_spec p 0) as [->|Hp]; [reflexivity|].
  destruct (Z.eqb_spec (- p) 0) as [|_]; [lia|].
  now rewrite Z.rem_opp_r.
Qed.

(** X3: Alignment keeps the order of timestamps. *)
Theorem align_monotone (t1 t2 p a1 a2 : Z) :
  Go.is_int64 t1 -> Go.is_int64 t2 -> 0 < p -> t1 <= t2 ->
  annotator.align t1 p = Go.Ok a1 ->
  annotator.align t2 p = Go.Ok a2 ->
  a1 <= a2.
Proof.
  intros H1 H2 Hp Hle E1 E2.
  rewrite AnnotatorFacts.align_nonzero in E1, E2 by (assumption || lia).
  injection E1 as <-. injection E2 as <-.
  rewrite !AnnotatorFacts.aligned_multiple by lia.
  apply Z.mul_le_mono_nonneg_r; [lia|].
  now apply Z.quot_le_mono.
Qed.

Lemma align_monotone_witness : -300 <= 1234500.
Proof.
  apply (align_monotone (-301) 1234567 300 (-300) 1234500);
    unfold Go.is_int64; try lia; reflexivity.
Defined.

Section Worker.

Variable Augment : netflow.Flow -> netflow.Flow.

Lemma worker_iter_nonzero (a : annotator.Annotator) (fl : netflow.Flow)
    (output : list netflow.Flow) (g : stats.Stats) :
  annotator.aggregation a <> 0 ->
  Go.is_int64 (netflow.Timestamp fl) ->
  annotator.worker_iter Augment a fl output g
  = Go.Ok (output ++ [Spec.annotated Augment a fl],
           stats.add_FlowPackets (Go.uint64 (netflow.Packets fl))
             (stats.add_FlowBytes (netflow.Size fl) g)).
Proof.
  intros Hagg Ht. unfold annotator.worker_iter.
  rewrite AnnotatorFacts.align_nonzero by assumption.
  reflexivity.
Qed.

(** X4: A worker forwards the flows it reads one for one and in the order
    read, each with its timestamp aligned (and augmented when
    augmentation is on). *)
Theorem worker_run_forwards_in_order (a : annotator.Annotator)
    (fls output : list netflow.Flow) (g : stats.Stats) :
  annotator.aggregation a <> 0 ->
  Forall (fun fl => Go.is_int64 (netflow.Timestamp fl)) fls ->
  exists g',
    annotator.worker_run Augment a fls output g
    = Go.Ok (output ++ map (Spec.annotated Augment a) fls, g').
Proof.
  intros Hagg Hall. revert output g.
  induction Hall as [|fl fls Hfl _ IH]; intros output g; cbn [map].
  - exists g. cbn. now rewrite app_nil_r.
  - cbn [annotator.worker_run].
    rewrite worker_iter_nonzero by assumption. cbn [Go.bind fst snd].
    destruct (IH (output ++ [Spec.annotated Augment a fl])
                 (stats.add_FlowPackets (Go.uint64 (netflow.Packets fl))
                    (stats.add_FlowBytes (netflow.Size fl) g)))
      as [g' ->].
    exists g'. now rewrite <- app_assoc.
Qed.

(** X5: Counter conservation for one worker: after a run, [FlowBytes] and
    [FlowPackets] have grown by the sizes and the packet counts of the
    flows read, as received (modulo [2^64]), and the other counters are
    untouched. *)
Theorem worker_run_counts_flows (a : annotator.Annotator)
    (fls output output' : list netflow.Flow) (g g' : stats.Stats) :
  annotator.worker_run Augment a fls output g = Go.Ok (output', g') ->
  Go.uint64 (stats.FlowBytes g')
  = Go.uint64 (stats.FlowBytes g + Spec.total netflow.Size fls)
  /\ Go.uint64 (stats.FlowPackets g')
     = Go.uint64
         (stats.FlowPackets g
          + Spec.total (fun fl => Go.uint64 (netflow.Packets fl)) fls)
  /\ stats.IPFIXpackets g' = stats.IPFIXpackets g
  /\ stats.IPFIXbytes g' = stats.IPFIXbytes g
  /\ stats.Flows4 g' = stats.Flows4 g
  /\ stats.Flows6 g' = stats.Flows6 g.
Proof.
  revert output g. induction fls as [|fl fls IH]; intros output g; cbn.
  - intros H. injection H as <- <-. rewrite !Z.add_0_r. repeat split.
  - unfold annotator.worker_iter.
    destruct (annotator.align _ _) as [t|]; cbn; [|discriminate].
    intros H. apply IH in H. cbn in H.
    destruct H as (Hb & Hp & -> & -> & -> & ->).
    rewrite Hb, Hp, !GoFacts.uint64_add_l, !Z.add_assoc. repeat split.
Qed.

End Worker.

Lemma worker_run_counts_flows_witness :
  Go.uint64 3000 = Go.uint64 (0 + Spec.total netflow.Size
                                    [Samples.a_flow; Samples.a_flow])
  /\ Go.uint64 2
     = Go.uint64 (0 + Spec.total (fun fl => Go.uint64 (netflow.Packets fl))
                        [Samples.a_flow; Samples.a_flow]).
Proof.
  pose proof (worker_run_counts_flows id (annotator.mkAnnotator 300 false)
                [Samples.a_flow; Samples.a_flow] [] _ stats.zero _ eq_refl)
    as (Hb & Hp & _).
  split; [exact Hb|exact Hp].
Defined.

Lemma worker_run_forwards_in_order_witness :
  exists g',
    annotator.worker_run id (annotator.mkAnnotator 300 false)
      [Samples.a_flow; Samples.a_flow] [] stats.zero
    = Go.Ok ([] ++ map (Spec.annotated id (annotator.mkAnnotator 300 false))
                     [Samples.a_flow; Samples.a_flow], g').
Proof.
  apply (worker_run_forwards_in_order id (annotator.mkAnnotator 300 false)
           [Samples.a_flow; Samples.a_flow] [] stats.zero).
  - cbn. lia.
  - repeat constructor; cbn; lia.
Defined.

End AlignFacts.

(** ** More on the field layout: what a field map always satisfies *)
Module LayoutFacts.

Import ifserver.

Lemma last_occurrence_exists (P : ipfix.FieldType -> Prop)
    `{forall ty, Decision (P ty)} (fs : list ipfix.TemplateField)
    (f : ipfix.TemplateField) :
  f ∈ fs -> P (ipfix.Type_ f) -> exists i, Spec.last_occurrence P fs i.
Proof.
  revert f. induction fs as [|g fs IH] using rev_ind; intros f Hf HP.
  - inversion Hf.
  - destruct (decide (P (ipfix.Type_ g))) as [Hg|Hg].
    + exists (length fs). split.
      * exists g. split; [|assumption].
        rewrite lookup_app_r by lia. now rewrite Nat.sub_diag.
      * intros j g' Hj Hg'. apply lookup_lt_Some in Hg'.
        rewrite length_app in Hg'. cbn in Hg'. lia.
    + apply elem_of_app in Hf as [Hf|Hf].
      * destruct (IH f Hf HP) as [i [(g' & Hg' & HPg') Hlast]].
        exists i. split.
        -- exists g'. split; [|assumption].
           rewrite lookup_app_l; [assumption|].
           now apply lookup_lt_Some in Hg'.
        -- intros j h Hj Hh.
           destruct (decide (j < length fs)%nat) as [Hlt|Hge].
           ++ rewrite lookup_app_l in Hh by assumption. now apply (Hlast j).
           ++ pose proof (lookup_lt_Some _ _ _ Hh) as Hb.
              rewrite length_app in Hb. cbn in Hb.
              assert (j = length fs) as -> by lia.
              rewrite lookup_app_r, Nat.sub_diag in Hh by lia.
              cbn in Hh. now injection Hh as <-.
      * apply list_elem_of_singleton in Hf as ->. contradiction.
Qed.

(** X6: The resolver never assigns the [vlan] and [ts] fields of the field
    map: they are zero for every template. *)
Theorem vlan_and_ts_never_set (template : ipfix.TemplateRecords) :
  vlan (generateFieldMap template) = 0 /\ ts (generateFieldMap template) = 0.
Proof.
  destruct template as [tid dom fs].
  induction fs as [|f fs IH] using rev_ind.
  - split; reflexivity.
  - rewrite FieldMapFacts.generateFieldMap_snoc. unfold resolveField.
    destruct (ipfix.Type_ f); cbn; exact IH.
Qed.

(** X7: A slot some field of the template is recorded in holds the index of
    a field of the template, and that field is one recorded in the slot:
    a set slot never points to a field of another kind. *)
Theorem set_slot_points_to_its_field (template : ipfix.TemplateRecords)
    (s : Spec.Slot) (f : ipfix.TemplateField) :
  f ∈ ipfix.Records template ->
  Spec.slot_of (ipfix.Type_ f) = Some s ->
  exists (i : nat) (f' : ipfix.TemplateField),
    Spec.slot_value s (generateFieldMap template) = Z.of_nat i
    /\ ipfix.Records template !! i = Some f'
    /\ Spec.slot_of (ipfix.Type_ f') = Some s.
Proof.
  intros Hf Hs.
  destruct (last_occurrence_exists
              (fun ty => Spec.slot_of ty = Some s) _ f Hf Hs) as [i Hlast].
  destruct template as [tid dom fs]. cbn [ipfix.Records] in *.
  pose proof (FieldMapFacts.slot_value_last tid dom fs s i Hlast) as Hv.
  destruct Hlast as [(f' & Hf' & Hs') _].
  now exists i, f'.
Qed.

Lemma set_slot_points_to_its_field_witness :
  exists (i : nat) (f' : ipfix.TemplateField),
    Spec.slot_value Spec.SrcAddress (generateFieldMap Samples.mixed_template)
    = Z.of_nat i
    /\ ipfix.Records Samples.mixed_template !! i = Some f'
    /\ Spec.slot_of (ipfix.Type_ f') = Some Spec.SrcAddress.
Proof.
  apply (set_slot_points_to_its_field Samples.mixed_template Spec.SrcAddress
           (Samples.field ipfix.IPv4SrcAddr 4)).
  - cbn. constructor.
  - reflexivity.
Defined.

(** X8: A slot no field of the template is recorded in holds index 0. *)
Theorem unset_slot_is_zero (template : ipfix.TemplateRecords) (s : Spec.Slot) :
  (forall f, f ∈ ipfix.Records template ->
             Spec.slot_of (ipfix.Type_ f) <> Some s) ->
  Spec.slot_value s (generateFieldMap template) = 0.
Proof.
  destruct template as [tid dom fs]. cbn [ipfix.Records].
  apply FieldMapFacts.slot_value_unset.
Qed.

Lemma unset_slot_is_zero_witness :
  Spec.slot_value Spec.SourceAS (generateFieldMap Samples.scenario_template)
  = 0.
Proof.
  apply (unset_slot_is_zero Samples.scenario_template Spec.SourceAS).
  intros f Hf. cbn in Hf.
  rewrite !elem_of_cons, elem_of_nil in Hf.
  destruct Hf as [->|[->|[->|[->|[->|[]]]]]]; discriminate.
Defined.

(** X9: The family and the source-address slot go together: the family is 4
    (6) exactly when the field at the source-address index is an IPv4
    (IPv6) source address, and 0 exactly when the template has no
    source-address field. *)
Theorem family_matches_source_address (template : ipfix.TemplateRecords) :
  (family (generateFieldMap template) = 0
   /\ forall f, f ∈ ipfix.Records template ->
        ipfix.Type_ f <> ipfix.IPv4SrcAddr
        /\ ipfix.Type_ f <> ipfix.IPv6SrcAddr)
  \/ (exists (i : nat) (f : ipfix.TemplateField),
        srcAddr (generateFieldMap template) = Z.of_nat i
        /\ ipfix.Records template !! i = Some f
        /\ (family (generateFieldMap template) = 4
            /\ ipfix.Type_ f = ipfix.IPv4SrcAddr
            \/ family (generateFieldMap template) = 6
               /\ ipfix.Type_ f = ipfix.IPv6SrcAddr)).
Proof.
  destruct template as [tid dom fs]. cbn [ipfix.Records].
  induction fs as [|f fs IH] using rev_ind.
  - left. split; [reflexivity|]. intros f Hf. inversion Hf.
  - rewrite FieldMapFacts.generateFieldMap_snoc.
    assert ((fs ++ [f]) !! length fs = Some f) as Hlast.
    { rewrite lookup_app_r by lia. now rewrite Nat.sub_diag. }
    destruct (decide (ipfix.Type_ f = ipfix.IPv4SrcAddr)) as [E4|N4].
    { right. exists (length fs), f. unfold resolveField. rewrite E4. cbn.
      split; [reflexivity|]. split; [assumption|]. now left. }
    destruct (decide (ipfix.Type_ f = ipfix.IPv6SrcAddr)) as [E6|N6].
    { right. exists (length fs), f. unfold resolveField. rewrite E6. cbn.
      split; [reflexivity|]. split; [assumption|]. now right. }
    rewrite FieldMapFacts.family_resolveField_other by assumption.
    change (srcAddr (resolveField (Z.of_nat (length fs)) f ?fm))
      with (Spec.slot_value Spec.SrcAddress
              (resolveField (Z.of_nat (length fs)) f fm)).
    rewrite (FieldMapFacts.slot_value_resolveField_miss Spec.SrcAddress).
    2:{ destruct (ipfix.Type_ f); cbn; congruence. }
    destruct IH as [[H0 Hno]|(i & g & Hi & Hg & Hfam)].
    + left. split; [assumption|]. intros h Hh.
      apply elem_of_app in Hh as [Hh|Hh]; [now apply Hno|].
      apply list_elem_of_singleton in Hh as ->. now split.
    + right. exists i, g. split; [exact Hi|]. split; [|exact Hfam].
      rewrite lookup_app_l; [assumption|]. now apply lookup_lt_Some in Hg.
Qed.

(** X10: A field type with a slot of its own (every recognized type but the
    address variants): the slot holds the index of the last occurrence
    of that type in the template. *)
Theorem last_occurrence_of_unshared_type_wins
    (template : ipfix.TemplateRecords) (ty : ipfix.FieldType)
    (s : Spec.Slot) (i : nat) :
  Spec.slot_of ty = Some s ->
  (forall ty', Spec.slot_of ty' = Some s -> ty' = ty) ->
  Spec.last_occurrence (eq ty) (ipfix.Records template) i ->
  Spec.slot_value s (generateFieldMap template) = Z.of_nat i.
Proof.
  intros Hs Honly [(f & Hf & Hty) Hlast].
  destruct template as [tid dom fs]. cbn [ipfix.Records] in *.
  apply FieldMapFacts.slot_value_last. split.
  - exists f. split; [assumption|]. now rewrite <- Hty.
  - intros j g Hj Hg Hsg. apply (Hlast j g Hj Hg).
    symmetry. now apply Honly.
Qed.

Lemma last_occurrence_of_unshared_type_wins_witness :
  Spec.slot_value Spec.PacketCount (generateFieldMap Samples.twice_template)
  = Z.of_nat 2.
Proof.
  apply (last_occurrence_of_unshared_type_wins Samples.twice_template
           ipfix.InPkts Spec.PacketCount 2).
  - reflexivity.
  - intros ty'. destruct ty'; cbn; congruence.
  - split.
    + eexists. split; reflexivity.
    + intros j f Hj Hf. apply lookup_lt_Some in Hf. cbn in Hf. lia.
Defined.

End LayoutFacts.

(** ** More on flow construction: when it panics, what it sends, what it
    counts *)
Module RecordFacts.

Import ifserver.

Lemma index_range {A : Type} (s : list A) (i : Z) (a : A) :
  Go.index s i = Go.Ok a -> 0 <= i < Z.of_nat (length s).
Proof.
  unfold Go.index. destruct (Z.ltb_spec i 0) as [|Hi]; [discriminate|].
  destruct (s !! Z.to_nat i) eqn:E; [|discriminate].
  intros _. apply lookup_lt_Some in E. lia.
Qed.

Lemma rmap_index_range {A B : Type} (f : A -> B) (s : list A) (i : Z) (b : B) :
  Go.rmap f (Go.index s i) = Go.Ok b -> 0 <= i < Z.of_nat (length s).
Proof.
  unfold Go.rmap. destruct (Go.index s i) as [a|] eqn:E; [|discriminate].
  intros _. now apply index_range in E.
Qed.

Lemma newFlow_reads_in_range (bgp : bool) (fm : fieldMap)
    (r : ipfix.FlowDataRecord) (agent : net.IP) (ts : Z) (fl : netflow.Flow)
    (s : Spec.Slot) :
  newFlow bgp fm r agent ts = Go.Ok fl ->
  Spec.is_read bgp s = true ->
  0 <= Spec.slot_value s fm < Z.of_nat (length (ipfix.Values r)).
Proof.
  intros H Hs. apply FlowFacts.newFlow_inv in H.
  destruct H as (_ & _ & _ & Hpk & Hsz & Hpr & Hin & Hout & Hsp & Hdp
                 & Hsa & Hda & Hnh & _ & Has).
  destruct s; cbn [Spec.slot_value];
    try (eapply rmap_index_range; eassumption).
  - destruct bgp; [discriminate|].
    destruct (Has eq_refl) as [H _]. eapply rmap_index_range; eassumption.
  - destruct bgp; [discriminate|].
    destruct (Has eq_refl) as [_ H]. eapply rmap_index_range; eassumption.
Qed.

Ltac read_in_range H s :=
  let a := fresh "a" in
  let E := fresh "E" in
  destruct (FlowFacts.index_Ok _ _ (H s eq_refl)) as [a E];
  cbn [Spec.slot_value] in E; rewrite ?E; clear E; cbn [Go.bind].

Lemma newFlow_Ok_of_range (bgp : bool) (fm : fieldMap)
    (r : ipfix.FlowDataRecord) (agent : net.IP) (ts : Z) :
  (forall s, Spec.is_read bgp s = true ->
     0 <= Spec.slot_value s fm < Z.of_nat (length (ipfix.Values r))) ->
  exists fl, newFlow bgp fm r agent ts = Go.Ok fl.
Proof.
  intros H. unfold newFlow.
  read_in_range H Spec.PacketCount.
  read_in_range H Spec.ByteCount.
  read_in_range H Spec.ProtocolNumber.
  read_in_range H Spec.IngressInterface.
  read_in_range H Spec.EgressInterface.
  read_in_range H Spec.SourcePort.
  read_in_range H Spec.DestinationPort.
  read_in_range H Spec.SrcAddress.
  read_in_range H Spec.DstAddress.
  read_in_range H Spec.NextHopAddress.
  destruct bgp; cbn [negb].
  - cbn. eexists. reflexivity.
  - read_in_range H Spec.SourceAS.
    read_in_range H Spec.DestinationAS.
    cbn. eexists. reflexivity.
Qed.

(** X11: Building a flow succeeds exactly when every index it reads the
    record at is in range; otherwise it panics.  With augmentation on,
    the AS indices are not read and may be out of range. *)
Theorem newFlow_succeeds_iff_reads_in_range (bgp : bool) (fm : fieldMap)
    (r : ipfix.FlowDataRecord) (agent : net.IP) (ts : Z) :
  (exists fl, newFlow bgp fm r agent ts = Go.Ok fl)
  <-> (forall s, Spec.is_read bgp s = true ->
         0 <= Spec.slot_value s fm < Z.of_nat (length (ipfix.Values r))).
Proof.
  split.
  - intros [fl H] s Hs. now apply (newFlow_reads_in_range bgp fm r agent ts fl).
  - apply newFlow_Ok_of_range.
Qed.

Lemma long_enough_in_range (template : ipfix.TemplateRecords)
    (r : ipfix.FlowDataRecord) (s : Spec.Slot) :
  Spec.long_enough template r ->
  ipfix.Records template <> [] ->
  0 <= Spec.slot_value s (generateFieldMap template)
    < Z.of_nat (length (ipfix.Values r)).
Proof.
  unfold Spec.long_enough. destruct template as [tid dom fs].
  cbn [ipfix.Records]. intros Hlen Hne.
  pose proof (FlowFacts.slot_value_range tid dom fs s).
  destruct fs; [contradiction|]. cbn [length] in *. lia.
Qed.

Lemma processRecords_known_family (fm : fieldMap) (agent : net.IP) (ts : Z)
    (records : list ipfix.FlowDataRecord) (ifs : IPFIXServer)
    (g : stats.Stats) :
  family fm = 4 \/ family fm = 6 ->
  Forall (fun r => exists fl,
            newFlow (bgpAugment ifs) fm r agent ts = Go.Ok fl) records ->
  exists flows g',
    processRecords fm agent ts records (ifs, g)
    = Go.Ok (mkIPFIXServer (tmplCache ifs) (Output ifs ++ flows)
                           (debug ifs) (bgpAugment ifs), g')
    /\ Forall2 (fun r fl =>
                  newFlow (bgpAugment ifs) fm r agent ts = Go.Ok fl)
               records flows.
Proof.
  intros Hfam Hall. revert ifs g Hall.
  induction records as [|r records IH]; intros ifs g Hall.
  - exists [], g. cbn. rewrite app_nil_r. split; [|constructor].
    now destruct ifs.
  - apply Forall_cons in Hall as [[fl Hfl] Hall].
    assert (processRecord fm agent ts (ifs, g) r
            = Go.Ok (send fl ifs,
                     if family fm =? 4 then stats.add_Flows4 1 g
                     else stats.add_Flows6 1 g)) as Hstep.
    { unfold processRecord. destruct Hfam as [E|E]; rewrite E; cbn;
        now rewrite Hfl. }
    cbn [processRecords]. rewrite Hstep. cbn [Go.bind].
    destruct (IH (send fl ifs)
                 (if family fm =? 4 then stats.add_Flows4 1 g
                  else stats.add_Flows6 1 g) Hall)
      as (flows & g' & Hrun & Hflows).
    exists (fl :: flows), g'. split.
    + rewrite Hrun. cbn. now rewrite <- app_assoc.
    + now constructor.
Qed.

(** X12: With a family the worker knows, one flow is sent per record, in the
    order of the records, each with the exporter as router, the export
    time as timestamp and the family of the template.  No record with a
    value for every field of the template makes the worker panic. *)
Theorem processFlowSet_one_flow_per_record (template : ipfix.TemplateRecords)
    (records : list ipfix.FlowDataRecord) (agent : net.IP) (ts : Z)
    (ifs : IPFIXServer) (g : stats.Stats) :
  family (generateFieldMap template) = 4
  \/ family (generateFieldMap template) = 6 ->
  Forall (Spec.long_enough template) records ->
  exists flows g',
    processFlowSet template records agent ts (ifs, g)
    = Go.Ok (mkIPFIXServer (tmplCache ifs) (Output ifs ++ flows)
                           (debug ifs) (bgpAugment ifs), g')
    /\ Forall2 (fun r fl =>
                  newFlow (bgpAugment ifs) (generateFieldMap template)
                          r agent ts = Go.Ok fl)
               records flows
    /\ Forall (fun fl =>
                 netflow.Router fl = agent
                 /\ netflow.Timestamp fl = ts
                 /\ netflow.Family fl = family (generateFieldMap template))
              flows.
Proof.
  intros Hfam Hlong. unfold processFlowSet.
  assert (ipfix.Records template <> []) as Hne.
  { apply FlowFacts.family_nonzero_nonempty. lia. }
  destruct (processRecords_known_family (generateFieldMap template) agent ts
              records ifs g Hfam) as (flows & g' & Hrun & Hflows).
  { eapply Forall_impl; [exact Hlong|]. intros r Hr.
    apply newFlow_Ok_of_range. intros s _.
    now apply long_enough_in_range. }
  exists flows, g'. split; [exact Hrun|]. split; [exact Hflows|].
  clear Hrun. induction Hflows as [|r fl records flows Hfl _ IH];
    constructor.
  - apply FlowFacts.newFlow_inv in Hfl.
    destruct Hfl as (HR & HT & HF & _).
    split; [assumption|]. split; [assumption|].
    rewrite HF. destruct Hfam as [->| ->]; reflexivity.
  - apply IH. now apply Forall_cons in Hlong as [_ Hlong].
Qed.

Lemma processFlowSet_one_flow_per_record_witness :
  exists flows g',
    processFlowSet Samples.scenario_template
      [Samples.scenario_record; Samples.scenario_record]
      Samples.exporter4 1500000000 (Samples.fresh_server false, stats.zero)
    = Go.Ok (mkIPFIXServer (tmplCache (Samples.fresh_server false))
               (Output (Samples.fresh_server false) ++ flows)
               (debug (Samples.fresh_server false))
               (bgpAugment (Samples.fresh_server false)), g')
    /\ Forall2 (fun r fl =>
                  newFlow (bgpAugment (Samples.fresh_server false))
                          (generateFieldMap Samples.scenario_template)
                          r Samples.exporter4 1500000000 = Go.Ok fl)
               [Samples.scenario_record; Samples.scenario_record] flows
    /\ Forall (fun fl =>
                 netflow.Router fl = Samples.exporter4
                 /\ netflow.Timestamp fl = 1500000000
                 /\ netflow.Family fl
                    = family (generateFieldMap Samples.scenario_template))
              flows.
Proof.
  apply (processFlowSet_one_flow_per_record Samples.scenario_template
           [Samples.scenario_record; Samples.scenario_record]
           Samples.exporter4 1500000000 (Samples.fresh_server false)
           stats.zero).
  - left. reflexivity.
  - repeat constructor.
Defined.

(** X13: A template with no source-address field has no family the worker
    knows: every record of the set is discarded, whatever it holds, and
    nothing changes, not even a counter. *)
Theorem processFlowSet_without_source_address
    (template : ipfix.TemplateRecords) (records : list ipfix.FlowDataRecord)
    (agent : net.IP) (ts : Z) (st : State) :
  (forall f, f ∈ ipfix.Records template ->
     ipfix.Type_ f <> ipfix.IPv4SrcAddr /\ ipfix.Type_ f <> ipfix.IPv6SrcAddr) ->
  processFlowSet template records agent ts st = Go.Ok st.
Proof.
  intros Hno. unfold processFlowSet.
  assert (family (generateFieldMap template) = 0) as Hfam.
  { destruct template as [tid dom fs].
    now apply FieldMapFacts.family_no_source_address. }
  induction records as [|r records IH]; [reflexivity|].
  cbn [processRecords].
  rewrite FlowFacts.processRecord_unknown_family by lia.
  exact IH.
Qed.

Lemma processFlowSet_without_source_address_witness :
  processFlowSet
    (ipfix.mkTemplateRecords 262 0
       [Samples.field ipfix.IPv4DstAddr 4; Samples.field ipfix.InPkts 4])
    [ipfix.mkFlowDataRecord []; Samples.scenario_record]
    Samples.exporter4 1500000000 (Samples.fresh_server false, stats.zero)
  = Go.Ok (Samples.fresh_server false, stats.zero).
Proof.
  apply (processFlowSet_without_source_address
           (ipfix.mkTemplateRecords 262 0
              [Samples.field ipfix.IPv4DstAddr 4;
               Samples.field ipfix.InPkts 4])).
  intros f Hf. cbn in Hf.
  rewrite !elem_of_cons, elem_of_nil in Hf.
  destruct Hf as [->|[->|[]]]; split; discriminate.
Defined.

(** X14: Counter conservation for one set: when the set is processed without
    a panic, the flow counter of the template's family has grown by the
    number of records (modulo [2^64]), and no other counter has
    changed. *)
Theorem processFlowSet_counts_records (template : ipfix.TemplateRecords)
    (records : list ipfix.FlowDataRecord) (agent : net.IP) (ts : Z)
    (ifs ifs' : IPFIXServer) (g g' : stats.Stats) :
  processFlowSet template records agent ts (ifs, g) = Go.Ok (ifs', g') ->
  Go.uint64 (stats.Flows4 g')
  = Go.uint64 (stats.Flows4 g
               + if family (generateFieldMap template) =? 4
                 then Z.of_nat (length records) else 0)
  /\ Go.uint64 (stats.Flows6 g')
     = Go.uint64 (stats.Flows6 g
                  + if family (generateFieldMap template) =? 4 then 0
                    else if family (generateFieldMap template) =? 6
                         then Z.of_nat (length records) else 0)
  /\ stats.IPFIXpackets g' = stats.IPFIXpackets g
  /\ stats.IPFIXbytes g' = stats.IPFIXbytes g
  /\ stats.FlowBytes g' = stats.FlowBytes g
  /\ stats.FlowPackets g' = stats.FlowPackets g.
Proof.
  unfold processFlowSet. generalize (generateFieldMap template) as fm.
  intros fm. revert ifs g.
  induction records as [|r records IH]; intros ifs g; cbn [processRecords].
  - intros H. injection H as <- <-. cbn [length].
    destruct (family fm =? 4), (family fm =? 6);
      rewrite ?Z.add_0_r; repeat split.
  - unfold processRecord.
    destruct (family fm =? 4) eqn:E4; [|destruct (family fm =? 6) eqn:E6].
    + destruct (newFlow _ _ _ _ _) as [fl|]; cbn [Go.bind]; [|discriminate].
      intros H. apply IH in H. rewrite ?E4 in H. cbn in H.
      destruct H as (H4 & H6 & -> & -> & -> & ->).
      rewrite H4, H6, GoFacts.uint64_add_l. repeat split.
      f_equal. cbn [length]. lia.
    + destruct (newFlow _ _ _ _ _) as [fl|]; cbn [Go.bind]; [|discriminate].
      intros H. apply IH in H. rewrite ?E4, ?E6 in H. cbn in H.
      destruct H as (H4 & H6 & -> & -> & -> & ->).
      rewrite H4, H6, GoFacts.uint64_add_l. repeat split.
      f_equal. cbn [length]. lia.
    + cbn [Go.bind]. intros H. apply IH in H. rewrite ?E4, ?E6 in H.
      exact H.
Qed.

Lemma processFlowSet_counts_records_witness :
  Go.uint64 2 = Go.uint64 (0 + Z.of_nat 2)
  /\ Go.uint64 0 = Go.uint64 (0 + 0).
Proof.
  pose proof (processFlowSet_counts_records Samples.scenario_template
                [Samples.scenario_record; Samples.scenario_record]
                Samples.exporter4 1500000000 (Samples.fresh_server false)
                _ stats.zero _ eq_refl) as (H4 & H6 & _).
  split; [exact H4|exact H6].
Defined.

(** X15: One record that lacks a value at an index the worker reads makes the
    whole set panic, wherever the record stands in the set: no flow of
    the set survives. *)
Theorem processFlowSet_short_record_panics (template : ipfix.TemplateRecords)
    (records : list ipfix.FlowDataRecord) (r : ipfix.FlowDataRecord)
    (s : Spec.Slot) (agent : net.IP) (ts : Z) (ifs : IPFIXServer)
    (g : stats.Stats) :
  family (generateFieldMap template) = 4
  \/ family (generateFieldMap template) = 6 ->
  r ∈ records ->
  Spec.is_read (bgpAugment ifs) s = true ->
  Z.of_nat (length (ipfix.Values r))
  <= Spec.slot_value s (generateFieldMap template) ->
  processFlowSet template records agent ts (ifs, g) = Go.Panic.
Proof.
  unfold processFlowSet. generalize (generateFieldMap template) as fm.
  intros fm Hfam Hr Hs Hshort. revert ifs g Hs.
  induction records as [|r0 records IH]; intros ifs g Hs.
  - inversion Hr.
  - cbn [processRecords].
    destruct (processRecord fm agent ts (ifs, g) r0) as [[ifs1 g1]|] eqn:E;
      cbn [Go.bind]; [|reflexivity].
    pose proof (FlowFacts.processRecord_frame _ _ _ _ _ _ E) as (_ & Hb & _).
    cbn in Hb.
    apply elem_of_cons in Hr as [<-|Hr].
    + exfalso.
      destruct (FlowFacts.processRecord_known_family _ _ _ _ _ _ _ Hfam E)
        as (fl & Hfl & _).
      pose proof (newFlow_reads_in_range _ _ _ _ _ _ s Hfl Hs). lia.
    + apply IH; [assumption|]. now rewrite Hb.
Qed.

Lemma processFlowSet_short_record_panics_witness :
  processFlowSet Samples.scenario_template
    [Samples.scenario_record; ipfix.mkFlowDataRecord [[x01; x00; x00; x0a]]]
    Samples.exporter4 1500000000 (Samples.fresh_server false, stats.zero)
  = Go.Panic.
Proof.
  apply (processFlowSet_short_record_panics Samples.scenario_template
           [Samples.scenario_record;
            ipfix.mkFlowDataRecord [[x01; x00; x00; x0a]]]
           (ipfix.mkFlowDataRecord [[x01; x00; x00; x0a]])
           Spec.PacketCount Samples.exporter4 1500000000
           (Samples.fresh_server false) stats.zero).
  - left. reflexivity.
  - right. left.
  - reflexivity.
  - cbn. lia.
Defined.

End RecordFacts.

(** ** The text of a Template Identity *)
Module KeyFacts.

Import ifserver.

Example makeTemplateKey_example :
  makeTemplateKey "10.0.0.254" 7 256 ["192.0.2.1"; "0"; "300"]
  = Go.Ok ("10.0.0.254|7|256", ["10.0.0.254"; "7"; "256"]).
Proof. reflexivity. Qed.

Lemma Itoa_inj (i j : Z) : strconv.Itoa i = strconv.Itoa j -> i = j.
Proof.
  unfold strconv.Itoa. intros H.
  apply (f_equal NilEmpty.int_of_string) in H.
  rewrite !NilEmpty.isi in H. injection H as H.
  now apply DecimalZ.to_int_inj.
Qed.

Lemma uint_no_bar (d : Decimal.uint) :
  Spec.has_char "|"%char (NilEmpty.string_of_uint d) = false.
Proof. induction d; cbn; assumption || reflexivity. Qed.

Lemma Itoa_no_bar (i : Z) : Spec.has_char "|"%char (strconv.Itoa i) = false.
Proof.
  unfold strconv.Itoa. destruct (Z.to_int i); cbn; apply uint_no_bar.
Qed.

(** Two texts cut at their first bar are equal part by part. *)
Lemma split_at_bar (a1 a2 r1 r2 : string) :
  Spec.has_char "|"%char a1 = false -> Spec.has_char "|"%char a2 = false ->
  a1 +:+ String "|"%char r1 = a2 +:+ String "|"%char r2 ->
  a1 = a2 /\ r1 = r2.
Proof.
  revert a2. induction a1 as [|c a1 IH]; intros [|c2 a2] H1 H2 H; cbn in *.
  - now injection H as ->.
  - injection H as <- _. cbn in H2. discriminate.
  - injection H as -> _. cbn in H1. discriminate.
  - injection H as -> H.
    apply orb_false_iff in H1 as [_ H1]. apply orb_false_iff in H2 as [_ H2].
    destruct (IH a2 H1 H2 H) as [-> ->]. auto.
Qed.

(** X16: [makeTemplateKey] panics exactly when the scratch slice has fewer
    than three entries.  Otherwise its first three entries are
    overwritten with the three parts of the identity, and the key is the
    whole slice joined with bars: entries beyond the third, if any, end
    up in the key. *)
Theorem makeTemplateKey_needs_three_entries (addr : string)
    (sourceID templateID : Z) (keyParts : list string) :
  (makeTemplateKey addr sourceID templateID keyParts = Go.Panic
   <-> (length keyParts < 3)%nat)
  /\ (forall p0 p1 p2 rest,
        keyParts = p0 :: p1 :: p2 :: rest ->
        makeTemplateKey addr sourceID templateID keyParts
        = Go.Ok (strings_.Join
                   (addr :: strconv.Itoa sourceID :: strconv.Itoa templateID
                    :: rest) "|",
                 addr :: strconv.Itoa sourceID :: strconv.Itoa templateID
                 :: rest)).
Proof.
  split.
  - destruct keyParts as [|p0 [|p1 [|p2 rest]]]; cbn; split;
      try reflexivity; try discriminate; try lia.
    all: intros _; cbn; lia.
  - intros p0 p1 p2 rest ->. reflexivity.
Qed.

Lemma makeTemplateKey_needs_three_entries_witness :
  (makeTemplateKey "10.0.0.254" 7 256 ["a"; "b"] = Go.Panic)
  /\ makeTemplateKey "10.0.0.254" 7 256 ["a"; "b"; "c"; "stale"]
     = Go.Ok ("10.0.0.254|7|256|stale", ["10.0.0.254"; "7"; "256"; "stale"]).
Proof.
  split.
  - apply (makeTemplateKey_needs_three_entries "10.0.0.254" 7 256 ["a"; "b"]).
    cbn. lia.
  - exact (proj2 (makeTemplateKey_needs_three_entries "10.0.0.254" 7 256
                    ["a"; "b"; "c"; "stale"]) "a" "b" "c" ["stale"] eq_refl).
Defined.

(** X17: With a three-entry scratch slice, as [processFlowSets] makes it, and
    addresses without a bar, different identities have different keys. *)
Theorem makeTemplateKey_injective (addr1 addr2 : string)
    (sourceID1 sourceID2 templateID1 templateID2 : Z)
    (keyParts1 keyParts2 parts1 parts2 : list string) (key : string) :
  length keyParts1 = 3%nat -> length keyParts2 = 3%nat ->
  Spec.has_char "|"%char addr1 = false -> Spec.has_char "|"%char addr2 = false ->
  makeTemplateKey addr1 sourceID1 templateID1 keyParts1 = Go.Ok (key, parts1) ->
  makeTemplateKey addr2 sourceID2 templateID2 keyParts2 = Go.Ok (key, parts2) ->
  addr1 = addr2 /\ sourceID1 = sourceID2 /\ templateID1 = templateID2.
Proof.
  intros L1 L2 B1 B2 H1 H2.
  destruct keyParts1 as [|? [|? [|? [|]]]]; try discriminate L1.
  destruct keyParts2 as [|? [|? [|? [|]]]]; try discriminate L2.
  cbn in H1, H2. injection H1 as <- _. injection H2 as H _.
  apply split_at_bar in H as [-> H]; [|assumption..].
  apply split_at_bar in H as [Hs Ht]; [|apply Itoa_no_bar..].
  apply Itoa_inj in Hs, Ht. auto.
Qed.

Lemma makeTemplateKey_injective_witness :
  "10.0.0.254"%string = "10.0.0.254"%string /\ 7 = 7 /\ 256 = 256.
Proof.
  apply (makeTemplateKey_injective "10.0.0.254" "10.0.0.254" 7 7 256 256
           [""; ""; ""] ["x"; "y"; "z"]
           ["10.0.0.254"; "7"; "256"] ["10.0.0.254"; "7"; "256"]
           "10.0.0.254|7|256");
    reflexivity.
Defined.

End KeyFacts.

(** ** More on the ingestion worker: the template cache, whole packets,
    a series of reads *)
Module PacketFacts.

Import ifserver.

Lemma bind_Ok_r {A : Type} (r : Go.result A) : Go.bind r Go.Ok = r.
Proof. now destruct r. Qed.

Lemma fold_set_frame (remote : net.IP) (trs : list ipfix.TemplateRecords)
    (ifs : IPFIXServer) :
  let ifs' :=
    fold_left
      (fun ifs tr =>
         with_tmplCache
           (tmplCache_set (tmplCache ifs) (convert.Uint32 remote)
              (ipfix.Packet_DomainID tr) (ipfix.TemplateID tr) tr) ifs)
      trs ifs in
  Output ifs' = Output ifs /\ debug ifs' = debug ifs
  /\ bgpAugment ifs' = bgpAugment ifs.
Proof.
  revert ifs. induction trs as [|tr trs IH]; intros ifs; cbn.
  - auto.
  - destruct (IH (with_tmplCache
                    (tmplCache_set (tmplCache ifs) (convert.Uint32 remote)
                       (ipfix.Packet_DomainID tr) (ipfix.TemplateID tr) tr)
                    ifs)) as (-> & -> & ->).
    auto.
Qed.

Lemma fold_set_get (remote : net.IP) (trs : list ipfix.TemplateRecords)
    (ifs : IPFIXServer) (a d t : Z) :
  tmplCache_get
    (tmplCache
       (fold_left
          (fun ifs tr =>
             with_tmplCache
               (tmplCache_set (tmplCache ifs) (convert.Uint32 remote)
                  (ipfix.Packet_DomainID tr) (ipfix.TemplateID tr) tr) ifs)
          trs ifs)) a d t
  = if a =? convert.Uint32 remote
    then match Spec.last_announced trs d t with
         | Some tr => Some tr
         | None => tmplCache_get (tmplCache ifs) a d t
         end
    else tmplCache_get (tmplCache ifs) a d t.
Proof.
  induction trs as [|tr trs IH] using rev_ind.
  - cbn. now destruct (a =? convert.Uint32 remote).
  - rewrite fold_left_app. cbn [fold_left with_tmplCache tmplCache].
    unfold Spec.last_announced in *. rewrite filter_app.
    unfold tmplCache_get, tmplCache_set in *.
    destruct (Z.eqb_spec a (convert.Uint32 remote)) as [->|Ha].
    + destruct (decide (Spec.announces d t tr = true)) as [Hyes|Hno].
      * rewrite (filter_cons_True _ tr []) by assumption.
        rewrite filter_nil, last_snoc.
        unfold Spec.announces in Hyes.
        apply andb_true_iff in Hyes as [Hd Ht].
        apply Z.eqb_eq in Hd, Ht. subst d t.
        apply lookup_insert_eq.
      * rewrite (filter_cons_False _ tr []) by assumption.
        rewrite filter_nil, app_nil_r.
        rewrite lookup_insert_ne; [exact IH|].
        intros E. apply Hno. injection E as <- <-.
        unfold Spec.announces. now rewrite !Z.eqb_refl.
    + rewrite lookup_insert_ne; [exact IH|]. congruence.
Qed.

(** X18: [updateTemplateCache] changes nothing but the cache, and in the
    cache only identities of this exporter that the packet announces:
    such an identity gets the last definition the packet announces for
    it (last write wins within a packet), every other identity keeps
    what it had. *)
Theorem updateTemplateCache_last_announcement_wins (remote : net.IP)
    (p : ipfix.Packet) (ifs : IPFIXServer) (a d t : Z) :
  Output (updateTemplateCache remote p ifs) = Output ifs
  /\ debug (updateTemplateCache remote p ifs) = debug ifs
  /\ bgpAugment (updateTemplateCache remote p ifs) = bgpAugment ifs
  /\ tmplCache_get (tmplCache (updateTemplateCache remote p ifs)) a d t
     = if a =? convert.Uint32 remote
       then match Spec.last_announced (ipfix.GetTemplateRecords p) d t with
            | Some tr => Some tr
            | None => tmplCache_get (tmplCache ifs) a d t
            end
       else tmplCache_get (tmplCache ifs) a d t.
Proof.
  unfold updateTemplateCache.
  destruct (fold_set_frame remote (ipfix.GetTemplateRecords p) ifs)
    as (HO & HD & HB).
  split; [exact HO|]. split; [exact HD|]. split; [exact HB|].
  apply fold_set_get.
Qed.

Section Codec.

Variable Decode : list byte -> net.IP -> option ipfix.Packet.
Variable DecodeFlowSet :
  ipfix.TemplateRecords -> ipfix.Set_ -> option (list ipfix.FlowDataRecord).

(** X19: A template and a data set that uses it may come in one packet: the
    cache is updated before the data sets are processed, so the first
    data set is read with the last definition the packet itself
    announces for its identity, whatever the cache held before. *)
Theorem processPacket_uses_templates_of_the_packet (remote : net.IP)
    (buffer : list byte) (p : ipfix.Packet) (set : ipfix.Set_)
    (rest : list ipfix.Set_) (tr : ipfix.TemplateRecords)
    (records : list ipfix.FlowDataRecord) (st : State) :
  Decode buffer remote = Some p ->
  ipfix.DataFlowSets p = set :: rest ->
  Spec.last_announced (ipfix.GetTemplateRecords p) (ipfix.DomainID p)
                      (ipfix.SetID set) = Some tr ->
  DecodeFlowSet tr set = Some records ->
  processPacket Decode DecodeFlowSet remote buffer st
  = Go.bind
      (processFlowSet tr records remote (Go.int64 (ipfix.ExportTime p))
         (updateTemplateCache remote p (fst st), snd st))
      (processFlowSets DecodeFlowSet remote (ipfix.DomainID p) rest
         (Go.int64 (ipfix.ExportTime p))).
Proof.
  intros HD Hsets Hlast Hrec. unfold processPacket.
  rewrite HD, Hsets. cbn [processFlowSets fst].
  unfold updateTemplateCache at 1. rewrite fold_set_get.
  rewrite Z.eqb_refl, Hlast, Hrec. reflexivity.
Qed.

(** X20: A set that does not decode with its template is skipped like a set
    with no template: the worker goes on as if the set were not there. *)
Theorem undecodable_set_is_skipped (remote : net.IP) (domainID : Z)
    (set : ipfix.Set_) (template : ipfix.TemplateRecords)
    (pre post : list ipfix.Set_) (ts : Z) (st : State) :
  tmplCache_get (tmplCache (fst st)) (convert.Uint32 remote) domainID
                (ipfix.SetID set) = Some template ->
  DecodeFlowSet template set = None ->
  processFlowSets DecodeFlowSet remote domainID (pre ++ set :: post) ts st
  = processFlowSets DecodeFlowSet remote domainID (pre ++ post) ts st.
Proof.
  revert st. induction pre as [|s pre IH]; intros st Hget Hdec.
  - cbn. now rewrite Hget, Hdec.
  - cbn. destruct (tmplCache_get _ _ _ (ipfix.SetID s)) as [template'|];
      [|now apply IH].
    destruct (DecodeFlowSet template' s) as [records|]; [|now apply IH].
    destruct (processFlowSet template' records remote ts st) as [st1|] eqn:E;
      cbn; [|reflexivity].
    apply IH; [|assumption]. apply FlowFacts.processRecords_frame in E.
    destruct E as (-> & _). assumption.
Qed.

End Codec.

Lemma processPacket_uses_templates_of_the_packet_witness :
  processPacket Samples.scenario_Decode Samples.scenario_DecodeFlowSet
    Samples.exporter4 [x00] (Samples.fresh_server false, stats.zero)
  = Go.bind
      (processFlowSet Samples.scenario_template [Samples.scenario_record]
         Samples.exporter4 (Go.int64 1500000000)
         (updateTemplateCache Samples.exporter4 Samples.scenario_packet
            (Samples.fresh_server false), stats.zero))
      (processFlowSets Samples.scenario_DecodeFlowSet Samples.exporter4 0 []
         (Go.int64 1500000000)).
Proof.
  apply (processPacket_uses_templates_of_the_packet Samples.scenario_Decode
           Samples.scenario_DecodeFlowSet Samples.exporter4 [x00]
           Samples.scenario_packet (ipfix.mkSet 256 [x00]) []
           Samples.scenario_template [Samples.scenario_record]
           (Samples.fresh_server false, stats.zero)); reflexivity.
Defined.

Lemma undecodable_set_is_skipped_witness :
  processFlowSets Samples.no_DecodeFlowSet Samples.exporter4 0
    ([] ++ ipfix.mkSet 256 [x00] :: [ipfix.mkSet 300 []]) 1500000000
    (updateTemplateCache Samples.exporter4 Samples.scenario_packet
       (Samples.fresh_server false), stats.zero)
  = processFlowSets Samples.no_DecodeFlowSet Samples.exporter4 0
      ([] ++ [ipfix.mkSet 300 []]) 1500000000
      (updateTemplateCache Samples.exporter4 Samples.scenario_packet
         (Samples.fresh_server false), stats.zero).
Proof.
  apply (undecodable_set_is_skipped Samples.no_DecodeFlowSet
           Samples.exporter4 0 (ipfix.mkSet 256 [x00])
           Samples.scenario_template [] [ipfix.mkSet 300 []] 1500000000).
  - vm_compute. reflexivity.
  - reflexivity.
Defined.

Lemma extends_refl (st : State) : Spec.extends st st.
Proof. unfold Spec.extends. split; [reflexivity|]. repeat split. Qed.

Lemma extends_trans (st1 st2 st3 : State) :
  Spec.extends st1 st2 -> Spec.extends st2 st3 -> Spec.extends st1 st3.
Proof.
  unfold Spec.extends.
  intros (HO & -> & -> & -> & -> & -> & ->) (HO' & -> & -> & -> & -> & -> & ->).
  split; [now transitivity (Output (fst st2))|]. repeat split.
Qed.

Lemma processRecord_extends (fm : fieldMap) (agent : net.IP) (ts : Z)
    (st st' : State) (r : ipfix.FlowDataRecord) :
  processRecord fm agent ts st r = Go.Ok st' -> Spec.extends st st'.
Proof.
  unfold processRecord. destruct st as [ifs g].
  destruct (family fm =? 4); [|destruct (family fm =? 6)].
  - destruct (newFlow _ _ _ _ _); cbn; [|discriminate].
    intros H. injection H as <-. unfold Spec.extends. cbn.
    split; [now apply prefix_app_r|]. repeat split.
  - destruct (newFlow _ _ _ _ _); cbn; [|discriminate].
    intros H. injection H as <-. unfold Spec.extends. cbn.
    split; [now apply prefix_app_r|]. repeat split.
  - intros H. injection H as <-. apply extends_refl.
Qed.

Lemma processRecords_extends (fm : fieldMap) (agent : net.IP) (ts : Z)
    (records : list ipfix.FlowDataRecord) (st st' : State) :
  processRecords fm agent ts records st = Go.Ok st' -> Spec.extends st st'.
Proof.
  revert st. induction records as [|r records IH]; intros st; cbn.
  - intros H. injection H as <-. apply extends_refl.
  - destruct (processRecord fm agent ts st r) as [st1|] eqn:E; cbn;
      [|discriminate].
    intros H. apply (extends_trans st st1 st').
    + now apply processRecord_extends in E.
    + now apply IH.
Qed.

Lemma updateTemplateCache_extends (remote : net.IP) (p : ipfix.Packet)
    (st : State) :
  Spec.extends st (updateTemplateCache remote p (fst st), snd st).
Proof.
  unfold updateTemplateCache.
  destruct (fold_set_frame remote (ipfix.GetTemplateRecords p) (fst st))
    as (HO & HD & HB).
  unfold Spec.extends. cbn [fst snd]. rewrite HO, HD, HB.
  split; [reflexivity|]. repeat split.
Qed.

Section Codec.

Variable Decode : list byte -> net.IP -> option ipfix.Packet.
Variable DecodeFlowSet :
  ipfix.TemplateRecords -> ipfix.Set_ -> option (list ipfix.FlowDataRecord).

Lemma processFlowSets_extends (remote : net.IP) (domainID : Z)
    (flowSets : list ipfix.Set_) (ts : Z) (st st' : State) :
  processFlowSets DecodeFlowSet remote domainID flowSets ts st = Go.Ok st' ->
  Spec.extends st st'.
Proof.
  revert st. induction flowSets as [|set flowSets IH]; intros st; cbn.
  - intros H. injection H as <-. apply extends_refl.
  - destruct (tmplCache_get _ _ _ _) as [template|]; [|apply IH].
    destruct (DecodeFlowSet template set) as [records|]; [|apply IH].
    destruct (processFlowSet template records remote ts st) as [st1|] eqn:E;
      cbn; [|discriminate].
    intros H. apply (extends_trans st st1 st').
    + now apply processRecords_extends in E.
    + now apply IH.
Qed.

Lemma processPacket_extends (remote : net.IP) (buffer : list byte)
    (st st' : State) :
  processPacket Decode DecodeFlowSet remote buffer st = Go.Ok st' ->
  Spec.extends st st'.
Proof.
  unfold processPacket. destruct (Decode buffer remote) as [p|].
  - intros H. apply processFlowSets_extends in H.
    eapply extends_trans; [|exact H]. apply updateTemplateCache_extends.
  - intros H. injection H as <-. apply extends_refl.
Qed.

(** X21: Over any series of reads that ends without a panic, the worker
    counts every datagram once, with its length, whether it is then
    dropped or decoded; a failed read counts nothing.  It never changes
    [FlowBytes], [FlowPackets] or its configuration, and the flows
    already sent stay as they are: flows are only added at the end. *)
Theorem packetWorker_run_counts_datagrams (rds : list Read)
    (ifs ifs' : IPFIXServer) (g g' : stats.Stats) :
  packetWorker_run Decode DecodeFlowSet rds (ifs, g) = Go.Ok (ifs', g') ->
  Go.uint64 (stats.IPFIXpackets g')
  = Go.uint64 (stats.IPFIXpackets g + Spec.received_packets rds)
  /\ Go.uint64 (stats.IPFIXbytes g')
     = Go.uint64 (stats.IPFIXbytes g + Spec.received_bytes rds)
  /\ stats.FlowBytes g' = stats.FlowBytes g
  /\ stats.FlowPackets g' = stats.FlowPackets g
  /\ Output ifs `prefix_of` Output ifs'
  /\ debug ifs' = debug ifs
  /\ bgpAugment ifs' = bgpAugment ifs.
Proof.
  revert ifs g. induction rds as [|rd rds IH]; intros ifs g.
  - cbn. intros H. injection H as <- <-. rewrite !Z.add_0_r.
    do 4 (split; [reflexivity|]). split; [reflexivity|]. split; reflexivity.
  - cbn [packetWorker_run Spec.received_packets Spec.received_bytes foldr].
    destruct rd as [|remote data].
    + cbn. apply IH.
    + cbn [packetWorker_iter].
      destruct (net.To4 remote) as [remote4|].
      * destruct (processPacket Decode DecodeFlowSet remote4 data _)
          as [[ifs1 g1]|] eqn:E; cbn [Go.bind]; [|discriminate].
        apply processPacket_extends in E.
        destruct E as (HO & HD & HB & HP & HBy & HFB & HFP). cbn in *.
        intros H. apply IH in H.
        destruct H as (H1 & H2 & -> & -> & HO' & -> & ->).
        rewrite H1, H2, HP, HBy, !GoFacts.uint64_add_l, !Z.add_assoc.
        do 4 (split; [reflexivity || assumption|]).
        split; [now transitivity (Output ifs1)|]. split; assumption.
      * cbn [Go.bind]. intros H. apply IH in H. cbn in H.
        destruct H as (H1 & H2 & -> & -> & HO' & -> & ->).
        rewrite H1, H2, !GoFacts.uint64_add_l, !Z.add_assoc.
        do 4 (split; [reflexivity|]). split; [assumption|].
        split; reflexivity.
Qed.

(** X22: The sender of a datagram received on a dual-stack socket: an
    IPv4-mapped 16-byte address is handled as the 4-byte address it
    stands for. *)
Theorem mapped_sender_is_IPv4 (ip4 : net.IP) (data : list byte) (st : State) :
  length ip4 = 4%nat ->
  packetWorker_iter Decode DecodeFlowSet (Datagram (Spec.mapped ip4) data) st
  = packetWorker_iter Decode DecodeFlowSet (Datagram ip4 data) st.
Proof.
  intros Hlen.
  destruct ip4 as [|b0 [|b1 [|b2 [|b3 [|]]]]]; try discriminate Hlen.
  reflexivity.
Qed.

(** X23: A datagram of an IPv4 sender that the codec cannot decode is
    dropped: nothing changes but the two counters of received packets
    and bytes. *)
Theorem undecodable_datagram_only_counted (remote remote4 : net.IP)
    (data : list byte) (ifs : IPFIXServer) (g : stats.Stats) :
  net.To4 remote = Some remote4 ->
  Decode data remote4 = None ->
  packetWorker_iter Decode DecodeFlowSet (Datagram remote data) (ifs, g)
  = Go.Ok (ifs,
           stats.add_IPFIXbytes (Go.uint64 (Z.of_nat (length data)))
             (stats.add_IPFIXpackets 1 g)).
Proof. intros H4 HD. cbn. rewrite H4. unfold processPacket. now rewrite HD. Qed.

End Codec.

Lemma undecodable_datagram_only_counted_witness :
  packetWorker_iter Samples.no_Decode Samples.no_DecodeFlowSet
    (Datagram Samples.exporter4_mapped [x00; x01])
    (Samples.fresh_server false, stats.zero)
  = Go.Ok (Samples.fresh_server false, stats.mkStats 1 2 0 0 0 0).
Proof.
  apply (undecodable_datagram_only_counted Samples.no_Decode
           Samples.no_DecodeFlowSet Samples.exporter4_mapped
           Samples.exporter4 [x00; x01] (Samples.fresh_server false)
           stats.zero); reflexivity.
Defined.

Lemma packetWorker_run_counts_datagrams_witness :
  Go.uint64 2 = Go.uint64 (0 + 2) /\ Go.uint64 4 = Go.uint64 (0 + 4).
Proof.
  pose proof (packetWorker_run_counts_datagrams Samples.scenario_Decode
                Samples.scenario_DecodeFlowSet
                [Datagram Samples.exporter6 [x00];
                 ReadError;
                 Datagram Samples.exporter4_mapped [x00; x01; x02]]
                (Samples.fresh_server false) _ stats.zero _ eq_refl)
    as (Hp & Hb & _).
  split; [exact Hp|exact Hb].
Defined.

Lemma mapped_sender_is_IPv4_witness :
  packetWorker_iter Samples.scenario_Decode Samples.scenario_DecodeFlowSet
    (Datagram Samples.exporter4_mapped [x00])
    (Samples.fresh_server false, stats.zero)
  = packetWorker_iter Samples.scenario_Decode Samples.scenario_DecodeFlowSet
      (Datagram Samples.exporter4 [x00])
      (Samples.fresh_server false, stats.zero).
Proof.
  apply (mapped_sender_is_IPv4 Samples.scenario_Decode
           Samples.scenario_DecodeFlowSet Samples.exporter4 [x00]
           (Samples.fresh_server false, stats.zero)).
  reflexivity.
Defined.

End PacketFacts.
